(** * AI Book Weaver: orchestration, assembly and export

    A shallow embedding of the generation handlers of the [App] component
    (the later revision, with author, optional content and cover feedback),
    of the service wrappers of [services/geminiService.ts] and of the
    document tree built by [createAndDownloadDocx] in
    [services/docxService.ts] (the revision with optional sections).

    Strings are sequences of UTF-16 code units, as in JavaScript.  React
    state is a record with one field per [useState] hook; a handler is the
    sequence of setter calls and service requests it performs, read off a
    snapshot of the state (the closure of [useCallback]). *)

From Stdlib Require Import String Ascii.
From stdpp Require Import base numbers option list.

Local Open Scope N_scope.

(* ================================================================== *)
(** ** JavaScript values *)
(* ================================================================== *)

Module Js.

(** A string is its list of UTF-16 code units. *)
Definition jsstring : Type := list N.

(** An ASCII literal of the source, as code units. *)
Definition lit (s : string) : jsstring :=
  (fun a : ascii => N_of_ascii a) <$> list_ascii_of_string s.

(** The double quote, U+0022. *)
Definition dquote : jsstring := [34].

(** The line feed ['\n'], U+000A. *)
Definition LF : N := 10.

(** ECMAScript [WhiteSpace] and [LineTerminator] code points, the ones
    [String.prototype.trim] strips: TAB, LF, VT, FF, CR, SP, NBSP,
    U+1680, U+2000..U+200A, LS, PS, U+202F, U+205F, U+3000, BOM. *)
Definition isWhiteSpace (c : N) : bool :=
  existsb (N.eqb c)
    [9; 10; 11; 12; 13; 32; 160; 5760; 8232; 8233; 8239; 8287; 12288; 65279]
  || ((8192 <=? c) && (c <=? 8202)).

Fixpoint trimStart (s : jsstring) : jsstring :=
  match s with
  | [] => []
  | c :: rest => if isWhiteSpace c then trimStart rest else s
  end.

Definition trimEnd (s : jsstring) : jsstring :=
  reverse (trimStart (reverse s)).

(** [s.trim()] *)
Definition trim (s : jsstring) : jsstring := trimEnd (trimStart s).

(** Truthiness of a string: only [''] is falsy. *)
Definition truthy (s : jsstring) : bool :=
  match s with [] => false | _ :: _ => true end.

(** Truthiness of an optional string property: [undefined] and [''] are
    falsy. *)
Definition truthyOpt (o : option jsstring) : bool :=
  match o with None => false | Some s => truthy s end.

(** [a || b] on strings. *)
Definition orElse (a b : jsstring) : jsstring := if truthy a then a else b.

(** [s.split(sep)] for a one-unit separator: never the empty array, and
    [''.split(sep)] is [['']]. *)
Fixpoint split (sep : N) (s : jsstring) : list jsstring :=
  match s with
  | [] => [[]]
  | c :: rest =>
      if c =? sep then [] :: split sep rest
      else match split sep rest with
           | [] => [[c]]
           | line :: lines => (c :: line) :: lines
           end
  end.

(** [lines.join(sep)], used to state what [split] inverts. *)
Fixpoint join (sep : N) (lines : list jsstring) : jsstring :=
  match lines with
  | [] => []
  | [line] => line
  | line :: rest => line ++ sep :: join sep rest
  end.

(** [a[i]]: [undefined] (here [None]) outside [0 .. a.length - 1]. *)
Definition index {A} (a : list A) (i : Z) : option A :=
  if (i <? 0)%Z then None else a !! Z.to_nat i.

(** [a.slice(start, end)]: negative positions count from the end, both
    are clamped to [0 .. a.length], and an empty range gives []. *)
Definition slice {A} (a : list A) (start finish : Z) : list A :=
  let len := Z.of_nat (length a) in
  let k := if (start <? 0)%Z then Z.max (len + start) 0 else Z.min start len in
  let final := if (finish <? 0)%Z then Z.max (len + finish) 0 else Z.min finish len in
  take (Z.to_nat (final - k)) (drop (Z.to_nat k) a).

Fixpoint digits (d : Decimal.uint) : jsstring :=
  match d with
  | Decimal.Nil => []
  | Decimal.D0 r => 48 :: digits r
  | Decimal.D1 r => 49 :: digits r
  | Decimal.D2 r => 50 :: digits r
  | Decimal.D3 r => 51 :: digits r
  | Decimal.D4 r => 52 :: digits r
  | Decimal.D5 r => 53 :: digits r
  | Decimal.D6 r => 54 :: digits r
  | Decimal.D7 r => 55 :: digits r
  | Decimal.D8 r => 56 :: digits r
  | Decimal.D9 r => 57 :: digits r
  end.

(** [`${n}`] for a natural number [n]: its decimal digits. *)
Definition numberToString (n : N) : jsstring := digits (N.to_uint n).

End Js.

Import Js.

(* ================================================================== *)
(** ** types.ts *)
(* ================================================================== *)

Module Chapter.
Record t : Type := mk { title : jsstring; content : jsstring }.
End Chapter.

Module Book.
(** Optional properties ([subtitle?], [dedication?], ...) are [None] when
    [undefined]. *)
Record t : Type := mk {
  title : jsstring;
  subtitle : option jsstring;
  authorName : jsstring;
  copyright : jsstring;
  dedication : option jsstring;
  acknowledgements : option jsstring;
  authorBio : option jsstring;
  synopsis : jsstring;
  introduction : Chapter.t;
  chapters : list Chapter.t;
  conclusion : Chapter.t
}.
End Book.

Module BookOutline.
Record t : Type := mk {
  synopsis : jsstring;
  introductionTitle : jsstring;
  chapterTitles : list jsstring;
  conclusionTitle : jsstring
}.
End BookOutline.

Inductive Genre : Type := fiction | non_fiction.

Module GenerationConfig.
Record t : Type := mk {
  title : jsstring;
  subtitle : option jsstring;
  authorName : jsstring;
  category : jsstring;
  genre : Genre;
  wordCount : jsstring;
  tone : jsstring;
  targetAudience : jsstring;
  language : jsstring
}.
End GenerationConfig.

(* ================================================================== *)
(** ** services/docxService.ts: the children of the document section *)
(* ================================================================== *)

Module Docx.

Inductive StyleId : Type := titleStyle | subtitle | author | normalPara.
Inductive HeadingLevel : Type := HEADING_1.

(** The four shapes of [new Paragraph({...})] the export builds. *)
Inductive Paragraph : Type :=
| Styled (text : jsstring) (style : StyleId)
    (** [{ text, style }] *)
| Heading (text : jsstring) (heading : HeadingLevel)
    (** [{ text, heading }] *)
| Centered (text : jsstring) (italics : bool) (before : N)
    (** [{ text, alignment: CENTER, italics?, spacing: { before } }] *)
| PageBreak.
    (** [{ children: [new PageBreak()] }] *)

(** [text.split('\n').filter(p => p.trim() !== '')] *)
Definition proseLines (text : jsstring) : list jsstring :=
  filter (fun p => trim p <> []) (split LF text).

(** [... .map(p => new Paragraph({ text: p, style: "normalPara" }))] *)
Definition prose (text : jsstring) : list Paragraph :=
  (fun p => Styled p normalPara) <$> proseLines text.

(** The file also keeps an earlier revision of the export, whose prose is
    [text.split('\n').map(p => new Paragraph({ text: p, style: "normalPara" }))],
    without the filter. *)
Definition proseEarlier (text : jsstring) : list Paragraph :=
  (fun p => Styled p normalPara) <$> split LF text.

(** [cond ? [...] : []] on an optional string property. *)
Definition whenPresent (o : option jsstring)
    (section : jsstring -> list Paragraph) : list Paragraph :=
  match o with
  | Some s => if truthy s then section s else []
  | None => []
  end.

(** The [children] array of [createAndDownloadDocx], in source order. *)
Definition children (book : Book.t) : list Paragraph :=
  (* 1. Internal Cover Page *)
  [Styled (Book.title book) titleStyle]
  ++ whenPresent (Book.subtitle book) (fun s => [Styled s subtitle])
  ++ [Styled (Book.authorName book) author;
      PageBreak;
  (* 2. Copyright Page *)
      Centered (Book.copyright book) false 4000;
      PageBreak]
  (* 3. Dedication (optional) *)
  ++ whenPresent (Book.dedication book)
       (fun d => [Centered d true 4000; PageBreak])
  (* 4. Synopsis *)
  ++ [Heading (lit "Synopsis") HEADING_1]
  ++ prose (Book.synopsis book)
  ++ [PageBreak;
  (* 5. Introduction *)
      Heading (Chapter.title (Book.introduction book)) HEADING_1]
  ++ prose (Chapter.content (Book.introduction book))
  (* 6. Chapters *)
  ++ flat_map (fun chapter =>
       [PageBreak; Heading (Chapter.title chapter) HEADING_1]
       ++ prose (Chapter.content chapter)) (Book.chapters book)
  (* 7. Conclusion *)
  ++ [PageBreak;
      Heading (Chapter.title (Book.conclusion book)) HEADING_1]
  ++ prose (Chapter.content (Book.conclusion book))
  (* 8. Acknowledgements (optional) *)
  ++ whenPresent (Book.acknowledgements book)
       (fun a => [PageBreak; Heading (lit "Acknowledgements") HEADING_1]
                 ++ prose a)
  (* 9. About the Author (optional) *)
  ++ whenPresent (Book.authorBio book)
       (fun b => [PageBreak; Heading (lit "About the Author") HEADING_1]
                 ++ prose b)
  (* 10. Final Page *)
  ++ [PageBreak; Centered (lit "Thank you for reading.") false 4000].

(** The nodes of the earlier revision: the paragraphs above, its title
    paragraph
    [{ children: [new TextRun(text)], heading: TITLE, alignment: CENTER,
       spacing: { before: 4000, after: 8000 } }]
    and [new TableOfContents(alias, { hyperlink: true, ... })]. *)
Inductive ChildEarlier : Type :=
| TitleParagraph (text : jsstring)
| TableOfContents (alias : jsstring)
| Para (p : Paragraph).

(** The [children] array of the earlier revision, in source order. *)
Definition childrenEarlier (book : Book.t) : list ChildEarlier :=
  (* Internal Cover Page *)
  [TitleParagraph (Book.title book);
   Para PageBreak;
  (* Table of Contents *)
   Para (Heading (lit "Table of Contents") HEADING_1);
   TableOfContents (lit "Summary");
   Para PageBreak;
  (* Synopsis *)
   Para (Heading (lit "Synopsis") HEADING_1)]
  ++ (Para <$> proseEarlier (Book.synopsis book))
  ++ [Para PageBreak;
  (* Introduction *)
      Para (Heading (Chapter.title (Book.introduction book)) HEADING_1)]
  ++ (Para <$> proseEarlier (Chapter.content (Book.introduction book)))
  (* Chapters *)
  ++ flat_map (fun chapter =>
       [Para PageBreak; Para (Heading (Chapter.title chapter) HEADING_1)]
       ++ (Para <$> proseEarlier (Chapter.content chapter)))
       (Book.chapters book)
  (* Conclusion *)
  ++ [Para PageBreak;
      Para (Heading (Chapter.title (Book.conclusion book)) HEADING_1)]
  ++ (Para <$> proseEarlier (Chapter.content (Book.conclusion book))).

End Docx.

(* ================================================================== *)
(** ** Promises and async functions *)
(* ================================================================== *)

Module Async.

(** How a promise settles.  A rejection carries the [message] of its
    [Error]. *)
Inductive Promise (A : Type) : Type :=
| Fulfilled (value : A)
| Rejected (message : jsstring).
Arguments Fulfilled {A} value.
Arguments Rejected {A} message.

(** [p.then(f)] with a callback that does not throw. *)
Definition then_ {A B} (p : Promise A) (f : A -> B) : Promise B :=
  match p with
  | Fulfilled v => Fulfilled (f v)
  | Rejected m => Rejected m
  end.

(** Where a piece of an async function ends: at its end, at a [throw]
    (or the rejection of an awaited promise), at an [await] that never
    resumes, or, in [Untyped], with [undefined] where the type of a
    property is not optional (the typed records above have no such
    value). *)
Inductive Outcome (A : Type) : Type :=
| Returned (value : A)
| Threw (message : jsstring)
| Suspended
| Untyped.
Arguments Returned {A} value.
Arguments Threw {A} message.
Arguments Suspended {A}.
Arguments Untyped {A}.

Fixpoint collect {A} (values : list (option A)) : option (list A) :=
  match values with
  | [] => Some []
  | None :: _ => None
  | Some v :: rest =>
      match collect rest with
      | Some vs => Some (v :: vs)
      | None => None
      end
  end.

(** [Promise.all(ps)], given the order in which the promises settle
    ([order] lists positions of [ps]; a position that does not occur never
    settles, a second occurrence changes nothing).  Each fulfilment is
    stored at the promise's own position; the first rejection rejects
    the whole; the result is the array of values once none is missing. *)
Fixpoint allFrom {A} (ps : list (Promise A)) (order : list nat)
    (values : list (option A)) : Outcome (list A) :=
  match order with
  | [] =>
      match collect values with
      | Some vs => Returned vs
      | None => Suspended
      end
  | i :: later =>
      match ps !! i with
      | Some (Rejected m) => Threw m
      | Some (Fulfilled v) => allFrom ps later (<[i := Some v]> values)
      | None => allFrom ps later values
      end
  end.

Definition all {A} (ps : list (Promise A)) (order : list nat)
    : Outcome (list A) :=
  allFrom ps order (replicate (length ps) None).

End Async.

Import Async.

(* ================================================================== *)
(** ** services/geminiService.ts *)
(* ================================================================== *)

(** The answer of the generative service to one request is an input of
    the model: [Some] when the body of the wrapper's [try] ran through
    (request, and where the wrapper parses, parsing), [None] when anything
    in it threw.  Each wrapper replaces whatever was thrown by its own
    [Error].  The outline wrapper returns [JSON.parse(cleanedJson) as
    BookOutline] unchecked: an answer here is one of the shape the
    response schema of the request asks for, a [BookOutline]; JSON of
    another shape is not among the answers of the model. *)
Module Gemini.

Definition generateAlternativeTitles (response : option (list jsstring))
    : Promise (list jsstring) :=
  match response with
  | Some titles => Fulfilled titles
  | None => Rejected (lit "Failed to generate alternative titles.")
  end.

Definition generateBookOutline (response : option BookOutline.t)
    : Promise BookOutline.t :=
  match response with
  | Some outline => Fulfilled outline
  | None =>
      Rejected (lit "Failed to generate book outline. Please check the console for details.")
  end.

Definition generateChapterContent (chapterTitle : jsstring)
    (response : option jsstring) : Promise jsstring :=
  match response with
  | Some text => Fulfilled text
  | None =>
      Rejected (lit "Failed to generate content for chapter: "
                ++ dquote ++ chapterTitle ++ dquote ++ lit ".")
  end.

Definition generateAuthorBio (response : option jsstring)
    : Promise jsstring :=
  match response with
  | Some text => Fulfilled text
  | None => Rejected (lit "Failed to generate author bio.")
  end.

(** [None] also when the service returned no image. *)
Definition generateCoverImage (response : option jsstring)
    : Promise jsstring :=
  match response with
  | Some imageBytes => Fulfilled imageBytes
  | None => Rejected (lit "Failed to generate cover image.")
  end.

End Gemini.

(* ================================================================== *)
(** ** The App component: state and handlers *)
(* ================================================================== *)

Module App.

Inductive LanguageKey : Type := en | pt | es.
Inductive AuthorBioOption : Type := manual | auto.

(** The one key of the translation table the handlers read. *)
Inductive TranslationKey : Type := formError.

(** One field per [useState] hook that a handler reads or writes.  The
    formatting choices of the download panel (font family, font size, line
    spacing) are read by no handler and are left out. *)
Record AppState : Type := mkState {
  uiLanguage : LanguageKey;
  title : jsstring;
  subtitle : jsstring;
  authorName : jsstring;
  category : jsstring;
  genre : Genre;
  wordCount : jsstring;
  tone : jsstring;
  targetAudience : jsstring;
  language : jsstring;
  dedication : jsstring;
  acknowledgements : jsstring;
  authorBioOption : AuthorBioOption;
  authorBio : jsstring;
  isLoading : bool;
  loadingMessage : jsstring;
  generatedBook : option Book.t;
  error : option jsstring;
  isSuggesting : bool;
  suggestedTitles : list jsstring;
  coverImage : option jsstring;
  isCoverLoading : bool;
  coverFeedback : jsstring
}.

(** The setters the handlers call, with their argument. *)
Inductive Setter : Type :=
| setTitle (v : jsstring)
| setAuthorBio (v : jsstring)
| setIsLoading (v : bool)
| setLoadingMessage (v : jsstring)
| setGeneratedBook (v : option Book.t)
| setError (v : option jsstring)
| setIsSuggesting (v : bool)
| setSuggestedTitles (v : list jsstring)
| setCoverImage (v : option jsstring)
| setIsCoverLoading (v : bool)
| setCoverFeedback (v : jsstring).

(** The state after a setter call: one field replaced. *)
Definition write (w : Setter) (s : AppState) : AppState :=
  match w with
  | setTitle v =>
    {| uiLanguage := uiLanguage s; title := v; subtitle := subtitle s;
       authorName := authorName s; category := category s;
       genre := genre s; wordCount := wordCount s; tone := tone s;
       targetAudience := targetAudience s; language := language s;
       dedication := dedication s; acknowledgements := acknowledgements s;
       authorBioOption := authorBioOption s; authorBio := authorBio s;
       isLoading := isLoading s; loadingMessage := loadingMessage s;
       generatedBook := generatedBook s; error := error s;
       isSuggesting := isSuggesting s;
       suggestedTitles := suggestedTitles s; coverImage := coverImage s;
       isCoverLoading := isCoverLoading s; coverFeedback := coverFeedback s |}
  | setAuthorBio v =>
    {| uiLanguage := uiLanguage s; title := title s;
       subtitle := subtitle s; authorName := authorName s;
       category := category s; genre := genre s; wordCount := wordCount s;
       tone := tone s; targetAudience := targetAudience s;
       language := language s; dedication := dedication s;
       acknowledgements := acknowledgements s;
       authorBioOption := authorBioOption s; authorBio := v;
       isLoading := isLoading s; loadingMessage := loadingMessage s;
       generatedBook := generatedBook s; error := error s;
       isSuggesting := isSuggesting s;
       suggestedTitles := suggestedTitles s; coverImage := coverImage s;
       isCoverLoading := isCoverLoading s; coverFeedback := coverFeedback s |}
  | setIsLoading v =>
    {| uiLanguage := uiLanguage s; title := title s;
       subtitle := subtitle s; authorName := authorName s;
       category := category s; genre := genre s; wordCount := wordCount s;
       tone := tone s; targetAudience := targetAudience s;
       language := language s; dedication := dedication s;
       acknowledgements := acknowledgements s;
       authorBioOption := authorBioOption s; authorBio := authorBio s;
       isLoading := v; loadingMessage := loadingMessage s;
       generatedBook := generatedBook s; error := error s;
       isSuggesting := isSuggesting s;
       suggestedTitles := suggestedTitles s; coverImage := coverImage s;
       isCoverLoading := isCoverLoading s; coverFeedback := coverFeedback s |}
  | setLoadingMessage v =>
    {| uiLanguage := uiLanguage s; title := title s;
       subtitle := subtitle s; authorName := authorName s;
       category := category s; genre := genre s; wordCount := wordCount s;
       tone := tone s; targetAudience := targetAudience s;
       language := language s; dedication := dedication s;
       acknowledgements := acknowledgements s;
       authorBioOption := authorBioOption s; authorBio := authorBio s;
       isLoading := isLoading s; loadingMessage := v;
       generatedBook := generatedBook s; error := error s;
       isSuggesting := isSuggesting s;
       suggestedTitles := suggestedTitles s; coverImage := coverImage s;
       isCoverLoading := isCoverLoading s; coverFeedback := coverFeedback s |}
  | setGeneratedBook v =>
    {| uiLanguage := uiLanguage s; title := title s;
       subtitle := subtitle s; authorName := authorName s;
       category := category s; genre := genre s; wordCount := wordCount s;
       tone := tone s; targetAudience := targetAudience s;
       language := language s; dedication := dedication s;
       acknowledgements := acknowledgements s;
       authorBioOption := authorBioOption s; authorBio := authorBio s;
       isLoading := isLoading s; loadingMessage := loadingMessage s;
       generatedBook := v; error := error s;
       isSuggesting := isSuggesting s;
       suggestedTitles := suggestedTitles s; coverImage := coverImage s;
       isCoverLoading := isCoverLoading s; coverFeedback := coverFeedback s |}
  | setError v =>
    {| uiLanguage := uiLanguage s; title := title s;
       subtitle := subtitle s; authorName := authorName s;
       category := category s; genre := genre s; wordCount := wordCount s;
       tone := tone s; targetAudience := targetAudience s;
       language := language s; dedication := dedication s;
       acknowledgements := acknowledgements s;
       authorBioOption := authorBioOption s; authorBio := authorBio s;
       isLoading := isLoading s; loadingMessage := loadingMessage s;
       generatedBook := generatedBook s; error := v;
       isSuggesting := isSuggesting s;
       suggestedTitles := suggestedTitles s; coverImage := coverImage s;
       isCoverLoading := isCoverLoading s; coverFeedback := coverFeedback s |}
  | setIsSuggesting v =>
    {| uiLanguage := uiLanguage s; title := title s;
       subtitle := subtitle s; authorName := authorName s;
       category := category s; genre := genre s; wordCount := wordCount s;
       tone := tone s; targetAudience := targetAudience s;
       language := language s; dedication := dedication s;
       acknowledgements := acknowledgements s;
       authorBioOption := authorBioOption s; authorBio := authorBio s;
       isLoading := isLoading s; loadingMessage := loadingMessage s;
       generatedBook := generatedBook s; error := error s;
       isSuggesting := v; suggestedTitles := suggestedTitles s;
       coverImage := coverImage s; isCoverLoading := isCoverLoading s;
       coverFeedback := coverFeedback s |}
  | setSuggestedTitles v =>
    {| uiLanguage := uiLanguage s; title := title s;
       subtitle := subtitle s; authorName := authorName s;
       category := category s; genre := genre s; wordCount := wordCount s;
       tone := tone s; targetAudience := targetAudience s;
       language := language s; dedication := dedication s;
       acknowledgements := acknowledgements s;
       authorBioOption := authorBioOption s; authorBio := authorBio s;
       isLoading := isLoading s; loadingMessage := loadingMessage s;
       generatedBook := generatedBook s; error := error s;
       isSuggesting := isSuggesting s; suggestedTitles := v;
       coverImage := coverImage s; isCoverLoading := isCoverLoading s;
       coverFeedback := coverFeedback s |}
  | setCoverImage v =>
    {| uiLanguage := uiLanguage s; title := title s;
       subtitle := subtitle s; authorName := authorName s;
       category := category s; genre := genre s; wordCount := wordCount s;
       tone := tone s; targetAudience := targetAudience s;
       language := language s; dedication := dedication s;
       acknowledgements := acknowledgements s;
       authorBioOption := authorBioOption s; authorBio := authorBio s;
       isLoading := isLoading s; loadingMessage := loadingMessage s;
       generatedBook := generatedBook s; error := error s;
       isSuggesting := isSuggesting s;
       suggestedTitles := suggestedTitles s; coverImage := v;
       isCoverLoading := isCoverLoading s; coverFeedback := coverFeedback s |}
  | setIsCoverLoading v =>
    {| uiLanguage := uiLanguage s; title := title s;
       subtitle := subtitle s; authorName := authorName s;
       category := category s; genre := genre s; wordCount := wordCount s;
       tone := tone s; targetAudience := targetAudience s;
       language := language s; dedication := dedication s;
       acknowledgements := acknowledgements s;
       authorBioOption := authorBioOption s; authorBio := authorBio s;
       isLoading := isLoading s; loadingMessage := loadingMessage s;
       generatedBook := generatedBook s; error := error s;
       isSuggesting := isSuggesting s;
       suggestedTitles := suggestedTitles s; coverImage := coverImage s;
       isCoverLoading := v; coverFeedback := coverFeedback s |}
  | setCoverFeedback v =>
    {| uiLanguage := uiLanguage s; title := title s;
       subtitle := subtitle s; authorName := authorName s;
       category := category s; genre := genre s; wordCount := wordCount s;
       tone := tone s; targetAudience := targetAudience s;
       language := language s; dedication := dedication s;
       acknowledgements := acknowledgements s;
       authorBioOption := authorBioOption s; authorBio := authorBio s;
       isLoading := isLoading s; loadingMessage := loadingMessage s;
       generatedBook := generatedBook s; error := error s;
       isSuggesting := isSuggesting s;
       suggestedTitles := suggestedTitles s; coverImage := coverImage s;
       isCoverLoading := isCoverLoading s; coverFeedback := v |}
  end.

(** A request a handler sends through a service wrapper, with the
    arguments it passes. *)
Inductive Request : Type :=
| AlternativeTitles (title language : jsstring)
| AuthorBio (authorName title category language : jsstring)
| Outline (config : GenerationConfig.t)
| ChapterContent (config : GenerationConfig.t)
    (chapterTitle synopsis : jsstring)
| CoverImage (title synopsis : jsstring) (feedback : option jsstring).

(** What a handler does, in program order. *)
Inductive Event : Type :=
| Write (w : Setter)
| Call (r : Request).

(** The state once the setter calls of a trace have been applied. *)
Definition run (events : list Event) (s : AppState) : AppState :=
  foldl (fun st e => match e with Write w => write w st | Call _ => st end)
        s events.

(** A piece of an async function: the events it performs and how it
    ends. *)
Definition Task (A : Type) : Type := (list Event * Outcome A)%type.

#[global] Instance task_ret : MRet Task := fun A a => ([], Returned a).

(** Sequencing: what follows runs only when what precedes ran to its
    end. *)
#[global] Instance task_bind : MBind Task := fun A B k m =>
  match m with
  | (ev, Returned a) => let (ev', r) := k a in (ev ++ ev', r)
  | (ev, Threw msg) => (ev, Threw msg)
  | (ev, Suspended) => (ev, Suspended)
  | (ev, Untyped) => (ev, Untyped)
  end.

(** A setter call. *)
Definition set (w : Setter) : Task unit := ([Write w], Returned tt).

(** [await wrapper(args)] for a single service request. *)
Definition await {A} (r : Request) (p : Promise A) : Task A :=
  ([Call r],
   match p with Fulfilled v => Returned v | Rejected m => Threw m end).

(** The requests are sent when the array of promises is built;
    [await Promise.all(...)] then resumes, throws or never resumes. *)
Definition awaitAll {A} (rs : list Request) (ps : list (Promise A))
    (order : list nat) : Task (list A) :=
  (Call <$> rs, Async.all ps order).

(** A value of a non-optional type read from a position that may hold
    [undefined]. *)
Definition typed {A} (o : option A) : Task A :=
  ([], match o with Some a => Returned a | None => Untyped end).

(** [try { body } catch (e) { handler(e.message) } finally { finalizer }]
    where the finalizer neither throws nor returns. *)
Definition tryCatchFinally (body : Task unit)
    (handler : jsstring -> Task unit) (finalizer : Task unit)
    : Task unit :=
  let caught :=
    match body with
    | (ev, Threw msg) => let (ev', r) := handler msg in (ev ++ ev', r)
    | other => other
    end in
  match caught with
  | (ev, Returned _) => (ev ++ fst finalizer, Returned tt)
  | (ev, Threw msg) => (ev ++ fst finalizer, Threw msg)
  | (ev, Suspended) => (ev, Suspended)
  | (ev, Untyped) => (ev, Untyped)
  end.

(** The inputs of a handler run that are not React state: the year of the
    clock and, per request, the answer of the service ([None] when the
    wrapper's [try] threw).  A single awaited request always settles; for
    the content promises the order of settlement, and whether a promise
    settles at all, is an input too. *)
Record World : Type := mkWorld {
  fullYear : N;                                (* new Date().getFullYear() *)
  authorBioResponse : option jsstring;
  outlineResponse : option BookOutline.t;
  contentResponse : nat -> option jsstring;    (* by position in contentPromises *)
  completionOrder : list nat;                  (* of contentPromises *)
  alternativeTitlesResponse : option (list jsstring);
  coverResponse : option jsstring
}.

Section Handlers.

(** translations.ts is not part of the sources at hand: the table is a
    parameter. *)
Variable translations : LanguageKey -> TranslationKey -> jsstring.

(** [translations[uiLanguage][key] || translations['en'][key]] *)
Definition t (s : AppState) (key : TranslationKey) : jsstring :=
  orElse (translations (uiLanguage s) key) (translations en key).

Definition handleSuggestTitles (w : World) (s : AppState) : Task unit :=
  if negb (truthy (trim (title s))) then
    set (setError (Some (lit "Please enter a title to get suggestions.")))
  else
    set (setIsSuggesting true) ;;
    set (setSuggestedTitles []) ;;
    set (setError None) ;;
    tryCatchFinally
      (titles ← await (AlternativeTitles (title s) (language s))
                   (Gemini.generateAlternativeTitles
                      (alternativeTitlesResponse w));
       set (setSuggestedTitles titles))
      (fun message =>
         set (setError (Some (lit "Could not generate suggestions: "
                              ++ message))))
      (set (setIsSuggesting false)).

(** [onClick] of a suggestion button. *)
Definition selectSuggestion (suggestion : jsstring) : Task unit :=
  set (setTitle suggestion) ;; set (setSuggestedTitles []).

(** [onClick] of the clear button under the suggestions. *)
Definition clearSuggestions : Task unit := set (setSuggestedTitles []).

Definition generationConfig (s : AppState) : GenerationConfig.t :=
  {| GenerationConfig.title := title s;
     GenerationConfig.subtitle := Some (subtitle s);
     GenerationConfig.authorName := authorName s;
     GenerationConfig.category := category s;
     GenerationConfig.genre := genre s;
     GenerationConfig.wordCount := wordCount s;
     GenerationConfig.tone := tone s;
     GenerationConfig.targetAudience := targetAudience s;
     GenerationConfig.language := language s |}.

(** The section titles in the order of [contentPromises]. *)
Definition sectionTitles (outline : BookOutline.t) : list jsstring :=
  [BookOutline.introductionTitle outline]
  ++ BookOutline.chapterTitles outline
  ++ [BookOutline.conclusionTitle outline].

(** [generateChapterContent(config, title, synopsis)
      .then(content => ({ title, content }))], one per section. *)
Definition contentPromises (w : World) (outline : BookOutline.t)
    : list (Promise Chapter.t) :=
  imap (fun i sectionTitle =>
          then_ (Gemini.generateChapterContent sectionTitle
                   (contentResponse w i))
                (fun content => Chapter.mk sectionTitle content))
       (sectionTitles outline).

Definition contentRequests (s : AppState) (outline : BookOutline.t)
    : list Request :=
  (fun sectionTitle =>
     ChapterContent (generationConfig s) sectionTitle
                    (BookOutline.synopsis outline))
  <$> sectionTitles outline.

(** The [book] object literal. *)
Definition assemble (w : World) (s : AppState)
    (finalAuthorBio : jsstring) (outline : BookOutline.t)
    (allContent : list Chapter.t) : option Book.t :=
  introduction ← index allContent 0;
  conclusion ← index allContent (Z.of_nat (length allContent) - 1);
  Some {| Book.title := title s;
          Book.subtitle := Some (subtitle s);
          Book.authorName := authorName s;
          Book.copyright :=
            lit "Copyright " ++ [169] ++ lit " "
            ++ numberToString (fullYear w) ++ lit " " ++ authorName s
            ++ lit ". All rights reserved.";
          Book.dedication := Some (dedication s);
          Book.acknowledgements := Some (acknowledgements s);
          Book.authorBio := Some finalAuthorBio;
          Book.synopsis := BookOutline.synopsis outline;
          Book.introduction := introduction;
          Book.chapters := slice allContent 1 (-1);
          Book.conclusion := conclusion |}.

(** The body of the [try] of [handleGenerateBook]. *)
Definition generateBookBody (w : World) (s : AppState) : Task unit :=
  finalAuthorBio ←
    match authorBioOption s with
    | auto =>
        set (setLoadingMessage (lit "Step 1/4: Generating author bio...")) ;;
        bio ← await (AuthorBio (authorName s) (title s) (category s)
                                (language s))
                 (Gemini.generateAuthorBio (authorBioResponse w));
        set (setAuthorBio bio) ;;
        mret bio
    | manual => mret (authorBio s)
    end;
  set (setLoadingMessage (lit "Step 2/4: Generating book outline...")) ;;
  outline ← await (Outline (generationConfig s))
               (Gemini.generateBookOutline (outlineResponse w));
  set (setLoadingMessage
         (lit "Step 3/4: Generating content for "
          ++ numberToString
               (N.of_nat (length (BookOutline.chapterTitles outline)) + 2)
          ++ lit " sections... (this may take a few minutes)")) ;;
  allContent ← awaitAll (contentRequests s outline)
                  (contentPromises w outline) (completionOrder w);
  set (setLoadingMessage (lit "Step 4/4: Assembling your book...")) ;;
  book ← typed (assemble w s finalAuthorBio outline allContent);
  set (setGeneratedBook (Some book)).

Definition handleGenerateBook (w : World) (s : AppState) : Task unit :=
  if negb (truthy (trim (title s))) || negb (truthy (trim (authorName s)))
  then
    set (setError (Some (t s formError)))
  else
    set (setIsLoading true) ;;
    set (setGeneratedBook None) ;;
    set (setCoverImage None) ;;
    set (setError None) ;;
    set (setSuggestedTitles []) ;;
    tryCatchFinally
      (generateBookBody w s)
      (fun message =>
         set (setError (Some (lit "An error occurred: " ++ message))))
      (set (setIsLoading false) ;; set (setLoadingMessage [])).

Definition handleGenerateCover (w : World) (s : AppState)
    (feedback : option jsstring) : Task unit :=
  match generatedBook s with
  | None => mret tt
  | Some generatedBook =>
      set (setIsCoverLoading true) ;;
      set (setError None) ;;
      tryCatchFinally
        (imageBase64 ←
           await (CoverImage (Book.title generatedBook)
                             (Book.synopsis generatedBook) feedback)
                 (Gemini.generateCoverImage (coverResponse w));
         set (setCoverImage
                (Some (lit "data:image/jpeg;base64," ++ imageBase64))) ;;
         set (setCoverFeedback []))
        (fun message =>
           set (setError (Some (lit "Failed to generate cover: "
                                ++ message))))
        (set (setIsCoverLoading false))
  end.

(** [disabled] of the generate button:
    [isLoading || isSuggesting || !title || !authorName]. *)
Definition generateDisabled (s : AppState) : bool :=
  isLoading s || isSuggesting s || negb (truthy (title s))
  || negb (truthy (authorName s)).

End Handlers.

(** The events of a task, and the state they leave. *)
Definition events {A} (task : Task A) : list Event := fst task.
Definition outcome {A} (task : Task A) : Outcome A := snd task.
Definition after {A} (task : Task A) (s : AppState) : AppState :=
  run (events task) s.

End App.

(* ================================================================== *)
(** ** Vocabulary of the statements *)
(* ================================================================== *)

Module Spec.

Import Docx App.

(** A line with at least one code unit that is not white space. *)
Definition visible (line : jsstring) : Prop :=
  Exists (fun c => isWhiteSpace c = false) line.

#[global] Instance visible_dec line : Decision (visible line).
Proof. unfold visible. apply _. Defined.

(** The lines of a text that make a paragraph: the visible ones. *)
Definition paragraphsOf (text : jsstring) : list jsstring :=
  filter visible (split LF text).

(** The texts of the body paragraphs (style [normalPara]) among document
    nodes, in order. *)
Definition bodyTexts (nodes : list Paragraph) : list jsstring :=
  omap (fun node =>
          match node with
          | Styled text normalPara => Some text
          | _ => None
          end) nodes.

(** The prose of a book, in document order; an absent optional section
    has none. *)
Definition sectionTexts (book : Book.t) : list jsstring :=
  [Book.synopsis book; Chapter.content (Book.introduction book)]
  ++ (Chapter.content <$> Book.chapters book)
  ++ [Chapter.content (Book.conclusion book)]
  ++ option_list (Book.acknowledgements book)
  ++ option_list (Book.authorBio book).

(** Cover page and copyright page. *)
Definition frontMatter (book : Book.t) : list Paragraph :=
  [Styled (Book.title book) titleStyle]
  ++ match Book.subtitle book with
     | Some (c :: s) => [Styled (c :: s) Docx.subtitle]
     | _ => []
     end
  ++ [Styled (Book.authorName book) author; PageBreak;
      Centered (Book.copyright book) false 4000; PageBreak].

(** One generated section: its heading, then its prose. *)
Definition sectionOf (chapter : Chapter.t) : list Paragraph :=
  Heading (Chapter.title chapter) HEADING_1 :: prose (Chapter.content chapter).

(** Synopsis, introduction, chapters and conclusion. *)
Definition mainMatter (book : Book.t) : list Paragraph :=
  Heading (lit "Synopsis") HEADING_1 :: prose (Book.synopsis book)
  ++ PageBreak :: sectionOf (Book.introduction book)
  ++ flat_map (fun chapter => PageBreak :: sectionOf chapter)
              (Book.chapters book)
  ++ PageBreak :: sectionOf (Book.conclusion book).

Definition closingPage : list Paragraph :=
  [PageBreak; Centered (lit "Thank you for reading.") false 4000].

(** The messages a trace surfaces: its non-null [setError] calls. *)
Definition errorsSurfaced (events : list Event) : list jsstring :=
  omap (fun e =>
          match e with
          | Write (setError (Some message)) => Some message
          | _ => None
          end) events.

(** The requests a trace sends. *)
Definition requestsSent (events : list Event) : list Request :=
  omap (fun e => match e with Call r => Some r | Write _ => None end) events.

(** The setters a trace calls. *)
Definition settersCalled (events : list Event) : list Setter :=
  omap (fun e => match e with Write w => Some w | Call _ => None end) events.

(** The message of a failed content expansion, as the generation handler
    surfaces it. *)
Definition contentFailure (sectionTitle : jsstring) : jsstring :=
  lit "An error occurred: Failed to generate content for chapter: "
  ++ dquote ++ sectionTitle ++ dquote ++ lit ".".

(** What the stored values are while [Promise.all] waits: one slot per
    promise, and a filled slot holds the value of the promise at the same
    position. *)
Definition slotsOf {A} (ps : list (Promise A)) (values : list (option A))
    : Prop :=
  length values = length ps
  /\ forall i v, values !! i = Some (Some v) -> ps !! i = Some (Fulfilled v).

(** The books a trace assigns to the generated-book state. *)
Definition booksAssigned (events : list Event) : list Book.t :=
  omap (fun e =>
          match e with
          | Write (setGeneratedBook (Some book)) => Some book
          | _ => None
          end) events.

(** The author bio the book is assembled with: the text of the form, or
    the generated one. *)
Definition finalAuthorBioIs (w : World) (s : AppState) (bio : jsstring)
    : Prop :=
  match authorBioOption s with
  | manual => bio = authorBio s
  | auto => authorBioResponse w = Some bio
  end.

(** The same answers of the service, settling in another order. *)
Definition settlingAs (order : list nat) (w : World) : World :=
  {| fullYear := fullYear w;
     authorBioResponse := authorBioResponse w;
     outlineResponse := outlineResponse w;
     contentResponse := contentResponse w;
     completionOrder := order;
     alternativeTitlesResponse := alternativeTitlesResponse w;
     coverResponse := coverResponse w |}.

(** The setters that leave the title alone: all but [setTitle]. *)
Definition keepsTitle (setter : Setter) : bool :=
  match setter with
  | setTitle _ => false
  | _ => true
  end.

End Spec.

(* ================================================================== *)
(** ** A sample session *)
(* ================================================================== *)

Module Sample.

Import App.

Definition table : LanguageKey -> TranslationKey -> jsstring :=
  fun _ _ => lit "Please fill in the title and the author name.".

(** The initial state of the component, with a title and an author typed
    in. *)
Definition form : AppState :=
  {| uiLanguage := en;
     title := lit "Tides"; subtitle := []; authorName := lit "Ana";
     category := lit "Self-Help";
     genre := non_fiction; wordCount := lit "15,000 - 20,000 words";
     tone := lit "Motivational"; targetAudience := lit "Entrepreneurs";
     language := lit "English";
     dedication := []; acknowledgements := []; authorBioOption := manual;
     authorBio := [];
     isLoading := false; loadingMessage := [];
     generatedBook := None; error := None;
     isSuggesting := false; suggestedTitles := [];
     coverImage := None; isCoverLoading := false; coverFeedback := [] |}.

Definition outline : BookOutline.t :=
  {| BookOutline.synopsis := lit "A year by the sea.";
     BookOutline.introductionTitle := lit "Before";
     BookOutline.chapterTitles := [lit "Ebb"; lit "Flow"];
     BookOutline.conclusionTitle := lit "After" |}.

Definition text (i : nat) : jsstring :=
  lit "Text " ++ numberToString (N.of_nat i).

(** Every call answered; the conclusion settles first, the second chapter
    last. *)
Definition answered : World :=
  {| fullYear := 2025;
     authorBioResponse := None;
     outlineResponse := Some outline;
     contentResponse := fun i => Some (text i);
     completionOrder := [3; 1; 0; 2]%nat;
     alternativeTitlesResponse := Some [lit "Salt"; lit "Shore"; lit "Swell"];
     coverResponse := Some (lit "QUJD") |}.

(** The call for the second chapter fails, and no cover comes back. *)
Definition failing : World :=
  {| fullYear := 2025;
     authorBioResponse := None;
     outlineResponse := Some outline;
     contentResponse := fun i => if (i =? 2)%nat then None else Some (text i);
     completionOrder := [3; 2; 0; 1]%nat;
     alternativeTitlesResponse := None;
     coverResponse := None |}.

Definition book : Book.t :=
  {| Book.title := lit "Tides";
     Book.subtitle := Some [];
     Book.authorName := lit "Ana";
     Book.copyright :=
       lit "Copyright " ++ [169] ++ lit " 2025 Ana. All rights reserved.";
     Book.dedication := Some [];
     Book.acknowledgements := Some [];
     Book.authorBio := Some [];
     Book.synopsis := lit "A year by the sea.";
     Book.introduction := Chapter.mk (lit "Before") (lit "Text 0");
     Book.chapters := [Chapter.mk (lit "Ebb") (lit "Text 1");
                       Chapter.mk (lit "Flow") (lit "Text 2")];
     Book.conclusion := Chapter.mk (lit "After") (lit "Text 3") |}.

(** The state once the book is there, a cover is shown and a correction
    is typed in. *)
Definition done : AppState :=
  write (setCoverFeedback (lit "darker"))
    (write (setCoverImage (Some (lit "data:image/jpeg;base64,QUJD")))
       (write (setGeneratedBook (Some book)) form)).

End Sample.

(* ================================================================== *)
(** ** More of the services: response cleaning and prompts *)
(* ================================================================== *)

Module Text.

(** [s.replace(/ /g, '_')] and the like: every occurrence of one code unit
    replaced by another. *)
Definition replaceAll (from to : N) (s : jsstring) : jsstring :=
  (fun c => if c =? from then to else c) <$> s.

(** What follows [p] at the start of [s], when [s] starts with [p]. *)
Fixpoint stripPrefix (p s : jsstring) : option jsstring :=
  match p, s with
  | [], _ => Some s
  | a :: p', b :: s' => if a =? b then stripPrefix p' s' else None
  | _ :: _, [] => None
  end.

(** The fence, three backticks (U+0060). *)
Definition fence : jsstring := [96; 96; 96].

(** [s.replace(/^```json\n?/, "")]: the opening fence, and the line feed
    after it if there is one, removed from the start. *)
Definition dropFenceOpen (s : jsstring) : jsstring :=
  match stripPrefix (fence ++ lit "json") s with
  | Some (c :: rest) => if c =? LF then rest else c :: rest
  | Some [] => []
  | None => s
  end.

(** [s.replace(/\n?```$/, "")]: the closing fence at the very end, and the
    line feed before it if there is one, removed.  The match has to reach
    the end of the string, so it starts four units before the end when
    the fence follows a line feed, three otherwise. *)
Definition dropFenceClose (s : jsstring) : jsstring :=
  match stripPrefix (fence ++ [LF]) (reverse s) with
  | Some before => reverse before
  | None =>
      match stripPrefix fence (reverse s) with
      | Some before => reverse before
      | None => s
      end
  end.

(** [response.text.trim()] then the two replacements: the text handed to
    [JSON.parse] by [generateAlternativeTitles], [generateBookOutline] and
    [generatePublishingDetails]. *)
Definition cleanedJson (text : jsstring) : jsstring :=
  dropFenceClose (dropFenceOpen (trim text)).

End Text.

Module Prompt.

Definition genreText (g : Genre) : jsstring :=
  match g with
  | fiction => lit "fiction"
  | non_fiction => lit "non-fiction"
  end.

(** A line of a template literal: four spaces of indentation, the text,
    a line feed. *)
Definition line (text : jsstring) : jsstring := lit "    " ++ text ++ [LF].

(** The prompt of [generateBookOutline]. *)
Definition outline (config : GenerationConfig.t) : jsstring :=
  [LF]
  ++ line (lit "You are a master book planner. Generate a detailed book outline based on the following specifications.")
  ++ line []
  ++ line (lit "- Title: " ++ dquote ++ GenerationConfig.title config ++ dquote)
  ++ line (lit "- Subtitle: " ++ dquote
           ++ match GenerationConfig.subtitle config with
              | Some subtitle => orElse subtitle (lit "N/A")
              | None => lit "N/A"
              end
           ++ dquote)
  ++ line (lit "- Genre: " ++ genreText (GenerationConfig.genre config))
  ++ line (lit "- Category: " ++ GenerationConfig.category config)
  ++ line (lit "- Tone: " ++ GenerationConfig.tone config)
  ++ line (lit "- Target Audience: " ++ GenerationConfig.targetAudience config)
  ++ line (lit "- Desired Length: " ++ GenerationConfig.wordCount config)
  ++ line []
  ++ line (lit "Your task is to create an outline that includes:")
  ++ line (lit "1.  A compelling synopsis (150-200 words).")
  ++ line (lit "2.  An engaging title for the Introduction.")
  ++ line (lit "3.  A list of 10 to 15 sequential and descriptive chapter titles.")
  ++ line (lit "4.  An impactful title for the Conclusion.")
  ++ [LF]
  ++ line (lit "IMPORTANT: Generate all content (synopsis, titles) in "
           ++ GenerationConfig.language config ++ lit ".")
  ++ lit "    The structure must be logical and flow naturally from one topic to the next, keeping the target audience and tone in mind.".

(** The prompt of [generateCoverImage] before the correction. *)
Definition coverBase (config : GenerationConfig.t) (synopsis : jsstring)
    : jsstring :=
  [LF]
  ++ line (lit "Create a stunning, high-quality book cover for a book with the following details:")
  ++ line (lit "- Title: " ++ dquote ++ GenerationConfig.title config ++ dquote)
  ++ line (lit "- Author: " ++ dquote ++ GenerationConfig.authorName config
           ++ dquote)
  ++ line (lit "- Synopsis: " ++ dquote ++ synopsis ++ dquote)
  ++ line (lit "- Genre: " ++ genreText (GenerationConfig.genre config))
  ++ line (lit "- Category: " ++ GenerationConfig.category config)
  ++ line (lit "- Tone: " ++ GenerationConfig.tone config)
  ++ line (lit "- Target Audience: " ++ GenerationConfig.targetAudience config)
  ++ [LF]
  ++ line (lit "The cover style should be modern, artistic, and eye-catching, suitable for a bestseller.")
  ++ line []
  ++ line (lit "CRITICAL INSTRUCTION: The cover MUST include the exact book title "
           ++ dquote ++ GenerationConfig.title config ++ dquote
           ++ lit " and the author's name "
           ++ dquote ++ GenerationConfig.authorName config ++ dquote
           ++ lit ".")
  ++ line (lit "The text must be clear, professional, and elegantly integrated into the design. Use a readable, high-quality font.")
  ++ line (lit "The background art should be visually compelling and representative of the book's theme.")
  ++ lit "  ".

(** The correction appended to the cover prompt. *)
Definition correction (feedback : jsstring) : jsstring :=
  [LF; LF]
  ++ lit "IMPORTANT CORRECTION INSTRUCTIONS: The user has provided feedback on a previous version. Please modify the image based on the following instructions: "
  ++ dquote ++ feedback ++ dquote.

(** The prompt of [generateCoverImage]:
    [if (feedback && feedback.trim()) prompt += ...]. *)
Definition cover (config : GenerationConfig.t) (synopsis : jsstring)
    (feedback : option jsstring) : jsstring :=
  coverBase config synopsis
  ++ match feedback with
     | Some text =>
         if truthy text && truthy (trim text) then correction text else []
     | None => []
     end.

End Prompt.

(* ================================================================== *)
(** ** More of the App component: what is rendered, and the downloads *)
(* ================================================================== *)

Module View.

Import App.

(** [suggestedTitles.length === 0 && !isSuggesting]: the suggest button. *)
Definition suggestButtonShown (s : AppState) : bool :=
  (length (suggestedTitles s) =? 0)%nat && negb (isSuggesting s).

(** [isSuggesting]: the line that says titles are being thought of. *)
Definition suggestingShown (s : AppState) : bool := isSuggesting s.

(** [suggestedTitles.length > 0 && !isSuggesting]: the suggestions. *)
Definition suggestionsShown (s : AppState) : bool :=
  (0 <? length (suggestedTitles s))%nat && negb (isSuggesting s).

(** [disabled] of the suggest button: [isLoading || !title.trim()]. *)
Definition suggestDisabled (s : AppState) : bool :=
  isLoading s || negb (truthy (trim (title s))).

(** [{error && ...}]: the error panel; [null] and [''] show nothing. *)
Definition errorShown (s : AppState) : bool := truthyOpt (error s).

(** [{generatedBook && !isLoading && ...}]: the result panel. *)
Definition resultShown (s : AppState) : bool :=
  match generatedBook s with Some _ => negb (isLoading s) | None => false end.

(** [coverImage ? ... : ...] inside the result panel: the cover with its
    correction box, otherwise the button that generates a first cover. *)
Definition coverShown (s : AppState) : bool := truthyOpt (coverImage s).

(** [disabled] of the correct-cover button:
    [isCoverLoading || !coverFeedback.trim()]. *)
Definition correctCoverDisabled (s : AppState) : bool :=
  isCoverLoading s || negb (truthy (trim (coverFeedback s))).

(** [onClick] of the correct-cover button:
    [handleGenerateCover(coverFeedback)]. *)
Definition correctCover (w : World) (s : AppState) : Task unit :=
  handleGenerateCover w s (Some (coverFeedback s)).

(** [onClick] of the first-cover button: [handleGenerateCover()]. *)
Definition generateCover (w : World) (s : AppState) : Task unit :=
  handleGenerateCover w s None.

(** The anchor element a download clicks on. *)
Record Anchor : Type := mkAnchor { href : jsstring; download : jsstring }.

(** [handleDownloadCover]: nothing without a cover and a book; otherwise
    an anchor on the cover image is added to the body, clicked and
    removed. *)
Definition handleDownloadCover (s : AppState) : option Anchor :=
  match coverImage s, generatedBook s with
  | Some image, Some book =>
      if truthy image then
        Some {| href := image;
                download := Text.replaceAll 32 95 (Book.title book)
                            ++ lit "_cover.jpg" |}
      else None
  | _, _ => None
  end.

(** The [download] attribute [createAndDownloadDocx] gives its anchor. *)
Definition docxName (book : Book.t) : jsstring :=
  Text.replaceAll 32 95 (Book.title book) ++ lit ".docx".

End View.

(* ================================================================== *)
(** ** More sample values *)
(* ================================================================== *)

Module More.

Import App.

(** The form with the generated bio chosen. *)
Definition formAuto : AppState :=
  {| uiLanguage := en;
     title := lit "Tides"; subtitle := []; authorName := lit "Ana";
     category := lit "Self-Help";
     genre := non_fiction; wordCount := lit "15,000 - 20,000 words";
     tone := lit "Motivational"; targetAudience := lit "Entrepreneurs";
     language := lit "English";
     dedication := lit "To the sea."; acknowledgements := [];
     authorBioOption := auto; authorBio := [];
     isLoading := false; loadingMessage := [];
     generatedBook := None; error := None;
     isSuggesting := false; suggestedTitles := [];
     coverImage := None; isCoverLoading := false; coverFeedback := [] |}.

(** No answer to the bio request. *)
Definition noBio : World := Sample.answered.

(** The bio comes back, the outline does not. *)
Definition noOutline : World :=
  {| fullYear := 2025;
     authorBioResponse := Some (lit "Ana writes by the shore.");
     outlineResponse := None;
     contentResponse := fun i => Some (Sample.text i);
     completionOrder := [3; 1; 0; 2]%nat;
     alternativeTitlesResponse := None;
     coverResponse := None |}.


(** A book whose synopsis has a blank line between two lines. *)
Definition spaced : Book.t :=
  {| Book.title := lit "Tides";
     Book.subtitle := None;
     Book.authorName := lit "Ana";
     Book.copyright :=
       lit "Copyright " ++ [169] ++ lit " 2025 Ana. All rights reserved.";
     Book.dedication := None;
     Book.acknowledgements := None;
     Book.authorBio := None;
     Book.synopsis := lit "one" ++ [LF; LF] ++ lit "two";
     Book.introduction := Chapter.mk (lit "Before") (lit "Text 0");
     Book.chapters := [Chapter.mk (lit "Ebb") (lit "Text 1")];
     Book.conclusion := Chapter.mk (lit "After") (lit "Text 3") |}.

(** The bio comes back and everything else does too. *)
Definition withBio : World :=
  {| fullYear := 2025;
     authorBioResponse := Some (lit "Ana writes by the shore.");
     outlineResponse := Some Sample.outline;
     contentResponse := fun i => Some (Sample.text i);
     completionOrder := [0; 1; 2; 3]%nat;
     alternativeTitlesResponse := None;
     coverResponse := None |}.

End More.

(* ================================================================== *)
(** ** More vocabulary of the statements *)
(* ================================================================== *)

Module Terms.

Import Docx App.

(** The values a trace gives the loading flag, in order. *)
Definition loadingWrites (events : list Event) : list bool :=
  omap (fun e =>
          match e with
          | Write (setIsLoading b) => Some b
          | _ => None
          end) events.

(** The texts of the headings among document nodes, in order. *)
Definition headings (nodes : list Paragraph) : list jsstring :=
  omap (fun node =>
          match node with
          | Heading text _ => Some text
          | _ => None
          end) nodes.

(** Whether every heading of [nodes] comes right after a page break,
    [afterBreak] telling whether a page break precedes [nodes]. *)
Fixpoint startPages (afterBreak : bool) (nodes : list Paragraph) : bool :=
  match nodes with
  | [] => true
  | Heading _ _ :: rest => afterBreak && startPages false rest
  | PageBreak :: rest => startPages true rest
  | _ :: rest => startPages false rest
  end.

(** The number of line feeds of a text. *)
Definition lineFeeds (text : jsstring) : nat :=
  length (filter (fun c => c = LF) text).

(** A configuration with another subtitle. *)
Definition withSubtitle (subtitle : option jsstring)
    (config : GenerationConfig.t) : GenerationConfig.t :=
  {| GenerationConfig.title := GenerationConfig.title config;
     GenerationConfig.subtitle := subtitle;
     GenerationConfig.authorName := GenerationConfig.authorName config;
     GenerationConfig.category := GenerationConfig.category config;
     GenerationConfig.genre := GenerationConfig.genre config;
     GenerationConfig.wordCount := GenerationConfig.wordCount config;
     GenerationConfig.tone := GenerationConfig.tone config;
     GenerationConfig.targetAudience := GenerationConfig.targetAudience config;
     GenerationConfig.language := GenerationConfig.language config |}.

(** The headings of the optional sections a book has. *)
Definition optionalHeadings (book : Book.t) : list jsstring :=
  (if truthyOpt (Book.acknowledgements book)
   then [lit "Acknowledgements"] else [])
  ++ (if truthyOpt (Book.authorBio book)
      then [lit "About the Author"] else []).

End Terms.

(* ================================================================== *)
(** ** The definitions at work *)
(* ================================================================== *)

Section Checks.

Import Docx App.

Example split_keeps_empty_pieces :
  split LF (lit "a" ++ [LF; LF] ++ lit "b" ++ [LF])
  = [lit "a"; []; lit "b"; []].
Proof. reflexivity. Qed.

Example split_of_empty : split LF [] = [[]].
Proof. reflexivity. Qed.

Example trim_strips_both_ends :
  trim ([160; 9] ++ lit "a b" ++ [13; 10]) = lit "a b".
Proof. reflexivity. Qed.

Example slice_of_two : slice [lit "intro"; lit "end"] 1 (-1) = [].
Proof. reflexivity. Qed.

Example slice_of_five : slice [1; 2; 3; 4; 5] 1 (-1) = [2; 3; 4].
Proof. reflexivity. Qed.

Example index_outside : index [1; 2] 2 = None /\ index [1; 2] (-1) = None.
Proof. split; reflexivity. Qed.

Example numberToString_year : numberToString 2025 = lit "2025".
Proof. reflexivity. Qed.

(** A carriage return alone on a line, a line of spaces and an empty line
    make no paragraph. *)
Example proseLines_blank :
  proseLines (lit "one" ++ [13; LF; 13; LF] ++ lit "   " ++ [LF; LF]
              ++ lit "two")
  = [lit "one" ++ [13]; lit "two"].
Proof. reflexivity. Qed.

(** The earlier revision makes a paragraph of the empty piece. *)
Example proseEarlier_blank :
  proseEarlier (lit "one" ++ [LF; LF] ++ lit "two")
  = [Styled (lit "one") normalPara; Styled [] normalPara;
     Styled (lit "two") normalPara].
Proof. reflexivity. Qed.

(** The values come back in the order of the promises, not of their
    settlement. *)
Example all_in_promise_order :
  Async.all [Fulfilled 10; Fulfilled 20; Fulfilled 30] [2; 0; 1]%nat
  = Returned [10; 20; 30].
Proof. reflexivity. Qed.

(** The first rejection to settle is the one reported. *)
Example all_first_rejection :
  Async.all [Fulfilled 10; Rejected (lit "b"); Rejected (lit "c")]
            [0; 2; 1]%nat
  = Threw (lit "c").
Proof. reflexivity. Qed.

(** A promise that never settles keeps [Promise.all] waiting. *)
Example all_waits :
  Async.all [Fulfilled 10; Fulfilled 20] [1]%nat = Suspended.
Proof. reflexivity. Qed.

Example sample_run_assigns_the_book :
  generatedBook
    (after (handleGenerateBook Sample.table Sample.answered Sample.form)
           Sample.form)
  = Some Sample.book.
Proof. vm_compute. reflexivity. Qed.

Example sample_run_fails_on_second_chapter :
  error
    (after (handleGenerateBook Sample.table Sample.failing Sample.form)
           Sample.form)
  = Some (lit "An error occurred: Failed to generate content for chapter: "
          ++ dquote ++ lit "Flow" ++ dquote ++ lit ".").
Proof. vm_compute. reflexivity. Qed.

(** The sample book has no optional text: its document is the title and
    copyright pages, the four generated sections and the closing page. *)
Example sample_export_length : length (children Sample.book) = 21%nat.
Proof. vm_compute. reflexivity. Qed.

End Checks.

(* ================================================================== *)
(** ** Strings and arrays *)
(* ================================================================== *)

Section JsFacts.

Lemma trimStart_nil (s : jsstring) :
  trimStart s = [] <-> Forall (fun c => isWhiteSpace c = true) s.
Proof.
  induction s as [|c s IH]; simpl.
  - split; [constructor | reflexivity].
  - destruct (isWhiteSpace c) eqn:Hc.
    + rewrite IH. split; [intros H; constructor; assumption|].
      intros H. apply Forall_cons in H. tauto.
    + split; [discriminate|]. intros H. apply Forall_cons in H.
      destruct H as [H _]. congruence.
Qed.

Lemma trimStart_head (s : jsstring) c rest :
  trimStart s = c :: rest -> isWhiteSpace c = false.
Proof.
  induction s as [|d s IH]; simpl; [discriminate|].
  destruct (isWhiteSpace d) eqn:Hd; [exact IH|].
  intros [= -> _]. exact Hd.
Qed.

Lemma trimStart_suffix (s : jsstring) : exists skipped, s = skipped ++ trimStart s
  /\ Forall (fun c => isWhiteSpace c = true) skipped.
Proof.
  induction s as [|c s (sk & Heq & Hsk)]; simpl.
  - exists []. split; [reflexivity | constructor].
  - destruct (isWhiteSpace c) eqn:Hc.
    + exists (c :: sk). split; [simpl; congruence | constructor; assumption].
    + exists []. split; [reflexivity | constructor].
Qed.

(** [s.trim() === ''] exactly when [s] is white space throughout. *)
Lemma trim_nil (s : jsstring) :
  trim s = [] <-> Forall (fun c => isWhiteSpace c = true) s.
Proof.
  unfold trim, trimEnd.
  destruct (trimStart_suffix s) as (sk & Heq & Hsk).
  destruct (trimStart s) as [|c rest] eqn:Hts.
  - simpl. split; [|reflexivity]. intros _. apply trimStart_nil, Hts.
  - pose proof (trimStart_head _ _ _ Hts) as Hc.
    split.
    + intros H. apply (f_equal reverse) in H.
      rewrite reverse_involutive in H. simpl in H.
      apply trimStart_nil in H. rewrite Forall_reverse in H.
      apply Forall_cons in H. destruct H as [H _]. congruence.
    + intros H. rewrite Heq in H. apply Forall_app in H.
      destruct H as [_ H]. apply Forall_cons in H.
      destruct H as [H _]. congruence.
Qed.

Lemma trim_visible (s : jsstring) : trim s <> [] <-> Spec.visible s.
Proof.
  unfold Spec.visible. split.
  - intros H.
    destruct (Forall_Exists_dec (fun c => isWhiteSpace c = true)
                (fun c => isWhiteSpace c = false)
                (fun c => bool_rec (fun b => {b = true} + {b = false})
                            (left eq_refl) (right eq_refl) (isWhiteSpace c)) s)
      as [HF|HE]; [|exact HE].
    exfalso. apply H, trim_nil, HF.
  - intros HE Hnil. apply trim_nil in Hnil.
    apply Exists_exists in HE. destruct HE as (c & Hin & Hc).
    rewrite Forall_forall in Hnil. specialize (Hnil c Hin). congruence.
Qed.

Lemma split_cons (sep : N) (s : jsstring) :
  exists line lines, split sep s = line :: lines.
Proof.
  destruct s as [|c s]; simpl; [eauto|].
  destruct (c =? sep); [eauto|]. destruct (split sep s); eauto.
Qed.

(** Joining the pieces with the separator gives the string back. *)
Lemma join_split (sep : N) (s : jsstring) : join sep (split sep s) = s.
Proof.
  induction s as [|c s IH]; [reflexivity|]. simpl.
  destruct (N.eqb_spec c sep) as [->|Hne].
  - destruct (split_cons sep s) as (l & ls & E). rewrite E in *.
    simpl. simpl in IH. rewrite IH. reflexivity.
  - destruct (split sep s) as [|l ls] eqn:E; [simpl in IH; subst; reflexivity|].
    destruct ls as [|l' ls]; simpl in *; rewrite <- IH; reflexivity.
Qed.

(** No piece contains the separator. *)
Lemma split_free (sep : N) (s : jsstring) :
  Forall (fun line => sep ∉ line) (split sep s).
Proof.
  induction s as [|c s IH]; simpl.
  - repeat constructor. apply not_elem_of_nil.
  - destruct (N.eqb_spec c sep) as [->|Hne].
    + constructor; [apply not_elem_of_nil | exact IH].
    + destruct (split sep s) as [|l ls].
      * repeat constructor. intros H. apply list_elem_of_singleton in H.
        congruence.
      * apply Forall_cons in IH. destruct IH as [Hl Hls].
        constructor; [|exact Hls].
        intros H. apply elem_of_cons in H. destruct H; [congruence | tauto].
Qed.

(** [[first, ...middle, last].slice(1, -1)] is [middle]. *)
Lemma slice_middle {A} (first last : A) (middle : list A) :
  slice (first :: middle ++ [last]) 1 (-1) = middle.
Proof.
  unfold slice. simpl length. rewrite length_app. simpl length.
  replace (1 <? 0)%Z with false by reflexivity.
  replace (-1 <? 0)%Z with true by reflexivity.
  rewrite Z.min_l by lia. rewrite Z.max_l by lia.
  replace (Z.to_nat 1) with 1%nat by reflexivity. simpl drop.
  replace (Z.to_nat _) with (length middle) by lia.
  apply take_app_length.
Qed.

Lemma index_first {A} (first : A) (rest : list A) :
  index (first :: rest) 0 = Some first.
Proof. reflexivity. Qed.

Lemma index_last {A} (init : list A) (last : A) :
  index (init ++ [last]) (Z.of_nat (length (init ++ [last])) - 1) = Some last.
Proof.
  unfold index. rewrite length_app. simpl length.
  destruct (Z.ltb_spec (Z.of_nat (length init + 1) - 1) 0) as [H|H]; [lia|].
  replace (Z.to_nat _) with (length init + 0)%nat by lia.
  rewrite lookup_app_r by lia.
  replace (length init + 0 - length init)%nat with 0%nat by lia. reflexivity.
Qed.

Lemma index_last_cons {A} (first : A) (middle : list A) (last : A) :
  index (first :: middle ++ [last])
        (Z.of_nat (length (first :: middle ++ [last])) - 1) = Some last.
Proof. apply (index_last (first :: middle) last). Qed.

End JsFacts.

(* ================================================================== *)
(** ** Export *)
(* ================================================================== *)

Section ExportFacts.

Import Docx.

Lemma whenPresent_nonempty o (section : jsstring -> list Paragraph) :
  whenPresent o section
  = match o with Some (c :: s) => section (c :: s) | _ => [] end.
Proof. destruct o as [[|c s]|]; reflexivity. Qed.

Lemma proseLines_visible text : proseLines text = Spec.paragraphsOf text.
Proof.
  unfold proseLines, Spec.paragraphsOf.
  apply list_filter_iff. intros line. apply trim_visible.
Qed.

Lemma bodyTexts_app nodes1 nodes2 :
  Spec.bodyTexts (nodes1 ++ nodes2)
  = Spec.bodyTexts nodes1 ++ Spec.bodyTexts nodes2.
Proof. apply omap_app. Qed.

Lemma bodyTexts_prose text :
  Spec.bodyTexts (prose text) = Spec.paragraphsOf text.
Proof.
  unfold prose. rewrite proseLines_visible.
  induction (Spec.paragraphsOf text) as [|l ls IH]; [reflexivity|].
  rewrite fmap_cons.
  change (l :: Spec.bodyTexts ((fun p => Styled p normalPara) <$> ls)
          = l :: ls).
  f_equal. exact IH.
Qed.

Lemma bodyTexts_chapters chapters :
  Spec.bodyTexts
    (flat_map (fun chapter =>
       [PageBreak; Heading (Chapter.title chapter) HEADING_1]
       ++ prose (Chapter.content chapter)) chapters)
  = (Chapter.content <$> chapters) ≫= Spec.paragraphsOf.
Proof.
  induction chapters as [|ch chs IH]; [reflexivity|].
  cbn [flat_map]. rewrite !bodyTexts_app, IH, bodyTexts_prose.
  rewrite fmap_cons, bind_cons. reflexivity.
Qed.

Lemma bodyTexts_optional o heading :
  Spec.bodyTexts
    (whenPresent o (fun text => [PageBreak; Heading heading HEADING_1]
                                ++ prose text))
  = option_list o ≫= Spec.paragraphsOf.
Proof.
  destruct o as [[|c s]|]; try reflexivity.
  unfold whenPresent. simpl truthy. cbv iota.
  rewrite bodyTexts_app, bodyTexts_prose. simpl option_list.
  rewrite bind_cons. rewrite app_nil_r. reflexivity.
Qed.

Lemma bodyTexts_children book :
  Spec.bodyTexts (children book)
  = Spec.sectionTexts book ≫= Spec.paragraphsOf.
Proof.
  unfold children, Spec.sectionTexts.
  rewrite !bodyTexts_app, !bind_app.
  rewrite !bodyTexts_prose, bodyTexts_chapters, !bodyTexts_optional.
  rewrite !bind_cons. simpl "≫=". rewrite !app_nil_r.
  destruct (Book.subtitle book) as [[|c s]|],
           (Book.dedication book) as [[|c' d]|];
    repeat match goal with
           | |- context [Spec.bodyTexts ?nodes] =>
               change (Spec.bodyTexts nodes) with (@nil jsstring)
           end;
    cbn [app]; rewrite <- ?app_assoc; reflexivity.
Qed.

Lemma paragraphsOf_visible text : Forall Spec.visible (Spec.paragraphsOf text).
Proof.
  apply Forall_forall. intros line Hin.
  apply list_elem_of_filter in Hin. tauto.
Qed.

(** C4. Each optional section (dedication, acknowledgements, author bio)
    is emitted if and only if its text is a non-empty string: the children
    of the document are the cover and copyright pages, the dedication page
    when there is a dedication, the generated sections, the
    acknowledgements and the author's section when their texts are there,
    and the closing page, in this order; an empty or undefined text adds
    no node at all. *)
Theorem optional_sections_iff_nonempty (book : Book.t) :
  children book
  = Spec.frontMatter book
    ++ match Book.dedication book with
       | Some (c :: d) => [Centered (c :: d) true 4000; PageBreak]
       | Some [] | None => []
       end
    ++ Spec.mainMatter book
    ++ match Book.acknowledgements book with
       | Some (c :: a) =>
           PageBreak :: Heading (lit "Acknowledgements") HEADING_1
           :: prose (c :: a)
       | Some [] | None => []
       end
    ++ match Book.authorBio book with
       | Some (c :: b) =>
           PageBreak :: Heading (lit "About the Author") HEADING_1
           :: prose (c :: b)
       | Some [] | None => []
       end
    ++ Spec.closingPage.
Proof.
  unfold children, Spec.frontMatter, Spec.mainMatter, Spec.closingPage,
    Spec.sectionOf.
  rewrite !whenPresent_nonempty.
  assert (Hch : forall chs,
    flat_map (fun chapter =>
      [PageBreak; Heading (Chapter.title chapter) HEADING_1]
      ++ prose (Chapter.content chapter)) chs
    = flat_map (fun chapter =>
        PageBreak :: Heading (Chapter.title chapter) HEADING_1
        :: prose (Chapter.content chapter)) chs) by reflexivity.
  rewrite Hch.
  destruct (Book.subtitle book) as [[|? ?]|],
           (Book.dedication book) as [[|? ?]|],
           (Book.acknowledgements book) as [[|? ?]|],
           (Book.authorBio book) as [[|? ?]|];
    simpl; rewrite <- ?app_assoc; simpl; rewrite <- ?app_assoc;
    reflexivity.
Qed.

(** C5, for the later revision of the export (the one that takes a font
    family and has the optional sections).  The body paragraphs of the
    exported document are, section text by section text, the pieces
    between line feeds that hold something other than white space: every
    body paragraph is visible, so no blank line of a text becomes a
    paragraph, and the pieces of a text are what the line feeds delimit
    (joined by line feeds they give the text back, and none holds a line
    feed). *)
Theorem export_drops_blank_lines (book : Book.t) :
  Spec.bodyTexts (children book)
    = Spec.sectionTexts book ≫= Spec.paragraphsOf
  /\ Forall Spec.visible (Spec.bodyTexts (children book))
  /\ Forall (fun text =>
               join LF (split LF text) = text
               /\ Forall (fun line => LF ∉ line) (split LF text))
            (Spec.sectionTexts book).
Proof.
  split; [apply bodyTexts_children|]. split.
  - rewrite bodyTexts_children.
    induction (Spec.sectionTexts book) as [|text texts IH]; [constructor|].
    rewrite bind_cons. apply Forall_app. split; [|exact IH].
    apply paragraphsOf_visible.
  - apply Forall_forall. intros text _. split.
    + apply join_split.
    + apply split_free.
Qed.

End ExportFacts.

(* ================================================================== *)
(** ** Promise.all *)
(* ================================================================== *)

Section PromiseAll.

Import Spec.

Context {A : Type}.
Implicit Types (ps : list (Promise A)) (order : list nat)
  (values : list (option A)) (vs : list A).

Lemma slotsOf_start ps : slotsOf ps (replicate (length ps) None).
Proof.
  split; [apply length_replicate|].
  intros i v H. apply lookup_replicate in H. destruct H; discriminate.
Qed.

Lemma slotsOf_store ps values i v :
  slotsOf ps values -> ps !! i = Some (Fulfilled v) ->
  slotsOf ps (<[i := Some v]> values).
Proof.
  intros [Hlen Hval] Hi. split; [rewrite length_insert; exact Hlen|].
  intros j u Hj. destruct (decide (i = j)) as [->|Hne].
  - rewrite list_lookup_insert_eq in Hj.
    + congruence.
    + rewrite Hlen. eapply lookup_lt_Some, Hi.
  - rewrite list_lookup_insert_ne in Hj by exact Hne. apply Hval, Hj.
Qed.

Lemma collect_Some values vs :
  collect values = Some vs <-> values = Some <$> vs.
Proof.
  revert vs. induction values as [|[v|] values IH]; intros vs; simpl.
  - split; [intros [= <-]; reflexivity|].
    destruct vs; [reflexivity | discriminate].
  - destruct (collect values) as [us|] eqn:E.
    + split.
      * intros [= <-]. rewrite fmap_cons. f_equal. apply IH. reflexivity.
      * destruct vs as [|u vs]; [discriminate|]. rewrite fmap_cons.
        intros [= -> Hvs]. apply IH in Hvs. congruence.
    + split; [discriminate|].
      destruct vs as [|u vs]; [discriminate|]. rewrite fmap_cons.
      intros [= -> Hvs]. apply IH in Hvs. discriminate.
  - split; [discriminate|]. destruct vs; discriminate.
Qed.

Lemma collect_filled values :
  (forall i, (i < length values)%nat -> exists v, values !! i = Some (Some v)) ->
  exists vs, collect values = Some vs.
Proof.
  induction values as [|o values IH]; intros H; [eexists; reflexivity|].
  destruct (H 0%nat) as [v Hv]; [simpl; lia|]. simpl in Hv.
  injection Hv as ->.
  destruct IH as [vs Hvs].
  { intros i Hi. apply (H (S i)). simpl. lia. }
  exists (v :: vs). simpl. rewrite Hvs. reflexivity.
Qed.

(** The values [Promise.all] resolves with are those of the promises,
    position by position, whatever the order of settlement. *)
Lemma allFrom_returned ps order values vs :
  slotsOf ps values -> allFrom ps order values = Returned vs ->
  ps = Fulfilled <$> vs.
Proof.
  revert values. induction order as [|i later IH]; intros values Hs; simpl.
  - destruct (collect values) as [us|] eqn:E; [|discriminate].
    intros [= <-]. apply collect_Some in E. subst values.
    destruct Hs as [Hlen Hval]. rewrite length_fmap in Hlen.
    apply list_eq. intros i. rewrite list_lookup_fmap.
    destruct (us !! i) as [u|] eqn:Hu; simpl.
    + apply Hval. rewrite list_lookup_fmap, Hu. reflexivity.
    + apply lookup_ge_None. apply lookup_ge_None in Hu. lia.
  - destruct (ps !! i) as [[v|m]|] eqn:Hi.
    + apply IH. apply slotsOf_store; assumption.
    + discriminate.
    + apply IH. exact Hs.
Qed.

Lemma fulfilled_inj vs vs' :
  Fulfilled <$> vs = (Fulfilled <$> vs' : list (Promise A)) -> vs = vs'.
Proof.
  revert vs'. induction vs as [|v vs IH]; intros [|v' vs'];
    rewrite ?fmap_cons; try discriminate; [reflexivity|].
  intros [= -> H]. f_equal. apply IH, H.
Qed.

Lemma all_returned ps order vs :
  Async.all ps order = Returned vs -> ps = Fulfilled <$> vs.
Proof. apply allFrom_returned, slotsOf_start. Qed.

(** A rejection of [Promise.all] is the rejection of one of the promises
    that settled. *)
Lemma allFrom_threw ps order values m :
  allFrom ps order values = Threw m ->
  exists j, j ∈ order /\ ps !! j = Some (Rejected m).
Proof.
  revert values. induction order as [|i later IH]; intros values; simpl.
  - destruct (collect values); discriminate.
  - destruct (ps !! i) as [[v|m']|] eqn:Hi.
    + intros H. destruct (IH _ H) as (j & Hj & Hr).
      exists j. split; [right; exact Hj | exact Hr].
    + intros [= ->]. exists i. split; [left | exact Hi].
    + intros H. destruct (IH _ H) as (j & Hj & Hr).
      exists j. split; [right; exact Hj | exact Hr].
Qed.

(** Once one promise rejects, [Promise.all] rejects. *)
Lemma allFrom_rejects ps order values i m :
  i ∈ order -> ps !! i = Some (Rejected m) ->
  exists m', allFrom ps order values = Threw m'.
Proof.
  intros Hin Hi. revert values.
  induction order as [|j later IH]; intros values.
  - apply elem_of_nil in Hin. contradiction.
  - simpl. destruct (ps !! j) as [[v|m']|] eqn:Hj.
    + apply IH. apply elem_of_cons in Hin.
      destruct Hin as [->|Hin]; [congruence | exact Hin].
    + eexists; reflexivity.
    + apply IH. apply elem_of_cons in Hin.
      destruct Hin as [->|Hin]; [congruence | exact Hin].
Qed.

(** When every promise fulfils and every one settles, [Promise.all]
    resolves. *)
Lemma allFrom_resolves ps order values :
  length values = length ps ->
  (forall i, (i < length ps)%nat -> exists v, ps !! i = Some (Fulfilled v)) ->
  (forall i, (i < length ps)%nat ->
     (exists v, values !! i = Some (Some v)) \/ i ∈ order) ->
  exists vs, allFrom ps order values = Returned vs.
Proof.
  intros Hlen Hful. revert values Hlen.
  induction order as [|j later IH]; intros values Hlen Hcov; simpl.
  - destruct (collect_filled values) as [vs Hvs].
    + intros i Hi. destruct (Hcov i) as [H|H]; [lia | exact H|].
      apply elem_of_nil in H. contradiction.
    + rewrite Hvs. eexists; reflexivity.
  - destruct (ps !! j) as [[v|m]|] eqn:Hj.
    + apply IH; [rewrite length_insert; exact Hlen|].
      intros i Hi. destruct (decide (j = i)) as [->|Hne].
      * left. exists v. apply list_lookup_insert_eq. lia.
      * rewrite list_lookup_insert_ne by exact Hne.
        destruct (Hcov i Hi) as [H|H]; [left; exact H|].
        apply elem_of_cons in H. destruct H as [->|H]; [congruence|].
        right; exact H.
    + apply lookup_lt_Some in Hj as Hlt.
      destruct (Hful j Hlt) as [v Hv]. congruence.
    + apply IH; [exact Hlen|].
      intros i Hi. destruct (Hcov i Hi) as [H|H]; [left; exact H|].
      apply elem_of_cons in H. destruct H as [->|H]; [|right; exact H].
      apply lookup_ge_None in Hj. lia.
Qed.

(** [Promise.all] hands over values only. *)
Lemma allFrom_typed ps order values : allFrom ps order values <> Untyped.
Proof.
  revert values. induction order as [|i later IH]; intros values; simpl.
  - destruct (collect values); discriminate.
  - destruct (ps !! i) as [[v|m]|]; [apply IH | discriminate | apply IH].
Qed.

Lemma all_typed ps order : Async.all ps order <> Untyped.
Proof. apply allFrom_typed. Qed.

Lemma all_resolves ps order :
  (forall i, (i < length ps)%nat -> exists v, ps !! i = Some (Fulfilled v)) ->
  (forall i, (i < length ps)%nat -> i ∈ order) ->
  exists vs, Async.all ps order = Returned vs.
Proof.
  intros Hful Hcov. apply allFrom_resolves.
  - apply length_replicate.
  - exact Hful.
  - intros i Hi. right. apply Hcov, Hi.
Qed.

End PromiseAll.

(* ================================================================== *)
(** ** Traces of tasks *)
(* ================================================================== *)

Section TaskFacts.

Import App.

Lemma events_bind {A B} (m : Task A) (k : A -> Task B) :
  events (m ≫= k)
  = events m ++ match outcome m with
                | Returned a => events (k a)
                | _ => []
                end.
Proof.
  destruct m as [ev [a|msg| |]]; unfold events; simpl;
    rewrite ?app_nil_r; try reflexivity.
  destruct (k a); reflexivity.
Qed.

Lemma outcome_bind {A B} (m : Task A) (k : A -> Task B) :
  outcome (m ≫= k)
  = match outcome m with
    | Returned a => outcome (k a)
    | Threw msg => Threw msg
    | Suspended => Suspended
    | Untyped => Untyped
    end.
Proof.
  destruct m as [ev [a|msg| |]]; unfold outcome; simpl; try reflexivity.
  destruct (k a); reflexivity.
Qed.

Lemma events_try body handler finalizer :
  events (tryCatchFinally body handler finalizer)
  = events body
    ++ match outcome body with
       | Returned _ => events finalizer
       | Threw msg =>
           events (handler msg)
           ++ match outcome (handler msg) with
              | Returned _ | Threw _ => events finalizer
              | _ => []
              end
       | _ => []
       end.
Proof.
  destruct body as [ev [a|msg| |]]; unfold events, tryCatchFinally; simpl;
    rewrite ?app_nil_r; try reflexivity.
  destruct (handler msg) as [ev' [a|msg'| |]]; simpl;
    rewrite ?app_nil_r, ?app_assoc; reflexivity.
Qed.

Lemma outcome_try body handler finalizer :
  outcome (tryCatchFinally body handler finalizer)
  = match outcome body with
    | Returned _ => Returned tt
    | Threw msg =>
        match outcome (handler msg) with
        | Returned _ => Returned tt
        | other => other
        end
    | other => other
    end.
Proof.
  destruct body as [ev [a|msg| |]]; unfold outcome, tryCatchFinally; simpl;
    try reflexivity.
  destruct (handler msg) as [ev' [a|msg'| |]]; reflexivity.
Qed.

Lemma events_set w : events (set w) = [Write w].
Proof. reflexivity. Qed.

Lemma outcome_set w : outcome (set w) = Returned tt.
Proof. reflexivity. Qed.

Lemma events_mret {A} (a : A) : events (mret a : Task A) = [].
Proof. reflexivity. Qed.

Lemma outcome_mret {A} (a : A) : outcome (mret a : Task A) = Returned a.
Proof. reflexivity. Qed.

Lemma events_await {A} r (p : Promise A) : events (await r p) = [Call r].
Proof. reflexivity. Qed.

Lemma outcome_await {A} r (p : Promise A) :
  outcome (await r p)
  = match p with Fulfilled v => Returned v | Rejected m => Threw m end.
Proof. reflexivity. Qed.

Lemma events_awaitAll {A} rs (ps : list (Promise A)) order :
  events (awaitAll rs ps order) = Call <$> rs.
Proof. reflexivity. Qed.

Lemma outcome_awaitAll {A} rs (ps : list (Promise A)) order :
  outcome (awaitAll rs ps order) = Async.all ps order.
Proof. reflexivity. Qed.

Lemma events_typed {A} (o : option A) : events (typed o) = [].
Proof. reflexivity. Qed.

Lemma outcome_typed {A} (o : option A) :
  outcome (typed o)
  = match o with Some a => Returned a | None => Untyped end.
Proof. reflexivity. Qed.

Lemma run_app events1 events2 s :
  run (events1 ++ events2) s = run events2 (run events1 s).
Proof. apply foldl_app. Qed.

End TaskFacts.

Ltac task_simpl :=
  repeat first
    [ rewrite events_bind | rewrite outcome_bind
    | rewrite events_try | rewrite outcome_try
    | rewrite events_set | rewrite outcome_set
    | rewrite events_mret | rewrite outcome_mret
    | rewrite events_await | rewrite outcome_await
    | rewrite events_awaitAll | rewrite outcome_awaitAll
    | rewrite events_typed | rewrite outcome_typed ].

Ltac case_scrutinee :=
  match goal with
  | |- context [match ?x with _ => _ end] =>
      lazymatch x with
      | context [match _ with _ => _ end] => fail
      | _ => destruct x eqn:?
      end
  end.

(** Unfold a handler into the traces of its paths. *)
Ltac paths := repeat (task_simpl; try case_scrutinee).

Section TraceFacts.

Import App Spec.

Lemma booksAssigned_app e1 e2 :
  booksAssigned (e1 ++ e2) = booksAssigned e1 ++ booksAssigned e2.
Proof. apply omap_app. Qed.

Lemma booksAssigned_calls rs : booksAssigned (Call <$> rs) = [].
Proof. induction rs as [|r rs IH]; [reflexivity|]. rewrite fmap_cons. exact IH. Qed.

Lemma errorsSurfaced_app e1 e2 :
  errorsSurfaced (e1 ++ e2) = errorsSurfaced e1 ++ errorsSurfaced e2.
Proof. apply omap_app. Qed.

Lemma errorsSurfaced_calls rs : errorsSurfaced (Call <$> rs) = [].
Proof. induction rs as [|r rs IH]; [reflexivity|]. rewrite fmap_cons. exact IH. Qed.

Lemma settersCalled_app e1 e2 :
  settersCalled (e1 ++ e2) = settersCalled e1 ++ settersCalled e2.
Proof. apply omap_app. Qed.

Lemma settersCalled_calls rs : settersCalled (Call <$> rs) = [].
Proof. induction rs as [|r rs IH]; [reflexivity|]. rewrite fmap_cons. exact IH. Qed.

Lemma run_calls rs s : run (Call <$> rs) s = s.
Proof.
  induction rs as [|r rs IH]; [reflexivity|]. rewrite fmap_cons. exact IH.
Qed.

(** The state a trace leaves depends on its setter calls only. *)
Lemma run_setters events s :
  run events s = foldl (fun st w => write w st) s (settersCalled events).
Proof.
  revert s. induction events as [|[w|r] events IH]; intros s;
    [reflexivity | apply IH | apply IH].
Qed.

End TraceFacts.

(* ================================================================== *)
(** ** Book generation *)
(* ================================================================== *)

Section Generation.

Import App Spec.

Variable translations : LanguageKey -> TranslationKey -> jsstring.

Lemma length_sectionTitles outline :
  length (sectionTitles outline)
  = (length (BookOutline.chapterTitles outline) + 2)%nat.
Proof. unfold sectionTitles. rewrite !length_app. simpl. lia. Qed.

Lemma contentPromises_lookup w outline i :
  contentPromises w outline !! i
  = (fun sectionTitle =>
       then_ (Gemini.generateChapterContent sectionTitle (contentResponse w i))
             (fun content => Chapter.mk sectionTitle content))
    <$> sectionTitles outline !! i.
Proof. apply list_lookup_imap. Qed.

Lemma length_contentPromises w outline :
  length (contentPromises w outline)
  = (length (BookOutline.chapterTitles outline) + 2)%nat.
Proof.
  unfold contentPromises. rewrite length_imap. apply length_sectionTitles.
Qed.

(** A fulfilled content promise carries the title it was created for. *)
Lemma contentPromises_fulfilled w outline allContent :
  contentPromises w outline = Fulfilled <$> allContent ->
  Chapter.title <$> allContent = sectionTitles outline.
Proof.
  intros H. apply list_eq. intros i.
  apply (f_equal (fun l => l !! i)) in H.
  rewrite contentPromises_lookup in H. rewrite !list_lookup_fmap in *.
  destruct (allContent !! i) as [c|], (sectionTitles outline !! i) as [ttl|];
    simpl in *; try congruence.
  unfold Gemini.generateChapterContent in H.
  destruct (contentResponse w i); simpl in H; [|discriminate].
  injection H as <-. reflexivity.
Qed.

(** A rejected content promise names the section it was created for. *)
Lemma contentPromises_rejected w outline j m :
  contentPromises w outline !! j = Some (Rejected m) ->
  exists sectionTitle,
    sectionTitles outline !! j = Some sectionTitle
    /\ contentResponse w j = None
    /\ m = lit "Failed to generate content for chapter: "
           ++ dquote ++ sectionTitle ++ dquote ++ lit ".".
Proof.
  rewrite contentPromises_lookup.
  destruct (sectionTitles outline !! j) as [ttl|]; simpl; [|discriminate].
  unfold Gemini.generateChapterContent.
  destruct (contentResponse w j); simpl; [discriminate|].
  intros [= <-]. eauto.
Qed.

(** The sections split into introduction, chapters and conclusion as the
    titles do. *)
Lemma sections_split outline allContent :
  Chapter.title <$> allContent = sectionTitles outline ->
  exists introduction chapters conclusion,
    allContent = introduction :: chapters ++ [conclusion]
    /\ Chapter.title introduction = BookOutline.introductionTitle outline
    /\ Chapter.title <$> chapters = BookOutline.chapterTitles outline
    /\ Chapter.title conclusion = BookOutline.conclusionTitle outline.
Proof.
  unfold sectionTitles. simpl. intros H.
  apply fmap_cons_inv in H. destruct H as (c0 & rest & Ht0 & Hrest & ->).
  symmetry in Hrest. apply fmap_app_inv in Hrest.
  destruct Hrest as (mid & lst & Hmid & Hlst & ->).
  symmetry in Hlst. apply fmap_cons_inv in Hlst.
  destruct Hlst as (cl & nil' & Hcl & Hnil & ->).
  symmetry in Hnil. apply fmap_nil_inv in Hnil. subst nil'.
  exists c0, mid, cl. repeat split; congruence.
Qed.

Lemma assemble_split w s bio outline introduction chapters conclusion book :
  assemble w s bio outline (introduction :: chapters ++ [conclusion])
    = Some book ->
  Book.introduction book = introduction
  /\ Book.chapters book = chapters
  /\ Book.conclusion book = conclusion.
Proof.
  unfold assemble.
  rewrite index_first, index_last_cons. simpl.
  rewrite slice_middle. intros [= <-]. simpl. auto.
Qed.

Lemma assemble_total w s bio outline introduction chapters conclusion :
  exists book,
    assemble w s bio outline (introduction :: chapters ++ [conclusion])
    = Some book.
Proof.
  unfold assemble.
  rewrite index_first, index_last_cons. simpl. eauto.
Qed.

(** A book is assigned only after [Promise.all] resolved, and it is the
    assembly of the resolved contents. *)
Lemma book_assigned_inv w s book :
  book ∈ booksAssigned (events (handleGenerateBook translations w s)) ->
  exists outline allContent bio,
    outlineResponse w = Some outline
    /\ finalAuthorBioIs w s bio
    /\ Async.all (contentPromises w outline) (completionOrder w)
       = Returned allContent
    /\ assemble w s bio outline allContent = Some book.
Proof.
  unfold handleGenerateBook, generateBookBody, finalAuthorBioIs,
    Gemini.generateAuthorBio, Gemini.generateBookOutline.
  paths;
    rewrite ?booksAssigned_app, ?booksAssigned_calls;
    cbn [booksAssigned omap list_omap app];
    intros Hin;
    try (apply elem_of_nil in Hin; contradiction);
    apply list_elem_of_singleton in Hin; subst;
    eauto 10.
Qed.

Lemma finalAuthorBioIs_unique w s bio bio' :
  finalAuthorBioIs w s bio -> finalAuthorBioIs w s bio' -> bio = bio'.
Proof. unfold finalAuthorBioIs. destruct (authorBioOption s); congruence. Qed.

(** C1. Whatever the order in which the content promises settle, a book
    the generation assigns has, chapter by chapter, the titles of the
    outline in the outline's order; and a run on the same answers settling
    in any other order assigns, if any, the same book. *)
Theorem chapter_titles_follow_outline w s book :
  book ∈ booksAssigned (events (handleGenerateBook translations w s)) ->
  exists outline,
    outlineResponse w = Some outline
    /\ Chapter.title <$> Book.chapters book
       = BookOutline.chapterTitles outline
    /\ (forall i, Chapter.title <$> Book.chapters book !! i
                  = BookOutline.chapterTitles outline !! i)
    /\ (forall order book',
          book' ∈ booksAssigned
                    (events (handleGenerateBook translations
                               (settlingAs order w) s)) ->
          book' = book).
Proof.
  intros Hin.
  destruct (book_assigned_inv _ _ _ Hin)
    as (outline & allContent & bio & Hout & Hbio & Hall & Hasm).
  apply all_returned in Hall.
  pose proof (contentPromises_fulfilled _ _ _ Hall) as Htitles.
  destruct (sections_split _ _ Htitles)
    as (c0 & mid & cl & -> & Ht0 & Hmid & Hcl).
  destruct (assemble_split _ _ _ _ _ _ _ _ Hasm) as (Hi & Hc & Hl).
  exists outline. split; [exact Hout|]. split; [congruence|]. split.
  - intros i. rewrite <- list_lookup_fmap. congruence.
  - intros order book' Hin'.
    destruct (book_assigned_inv _ _ _ Hin')
      as (outline' & allContent' & bio' & Hout' & Hbio' & Hall' & Hasm').
    simpl in Hout'. assert (outline' = outline) as -> by congruence.
    apply all_returned in Hall'.
    change (contentPromises (settlingAs order w) outline)
      with (contentPromises w outline) in Hall'.
    rewrite Hall in Hall'.
    apply fulfilled_inj in Hall'. subst allContent'.
    change (finalAuthorBioIs (settlingAs order w) s bio')
      with (finalAuthorBioIs w s bio') in Hbio'.
    assert (bio' = bio) as ->
      by (eapply finalAuthorBioIs_unique; [exact Hbio' | exact Hbio]).
    change (assemble (settlingAs order w) s bio outline)
      with (assemble w s bio outline) in Hasm'.
    congruence.
Qed.

(** C2. The chapters of an assigned book are the resolved contents
    without the first and the last: with N chapter titles in the outline
    there are N + 2 contents and N chapters, and the contents are the
    introduction, then the chapters, then the conclusion. *)
Theorem chapters_exclude_introduction_and_conclusion w s book :
  book ∈ booksAssigned (events (handleGenerateBook translations w s)) ->
  exists outline allContent,
    outlineResponse w = Some outline
    /\ Async.all (contentPromises w outline) (completionOrder w)
       = Returned allContent
    /\ length allContent
       = (length (BookOutline.chapterTitles outline) + 2)%nat
    /\ length (Book.chapters book)
       = length (BookOutline.chapterTitles outline)
    /\ Book.chapters book = slice allContent 1 (-1)
    /\ allContent
       = Book.introduction book :: Book.chapters book
         ++ [Book.conclusion book].
Proof.
  intros Hin.
  destruct (book_assigned_inv _ _ _ Hin)
    as (outline & allContent & bio & Hout & Hbio & Hall & Hasm).
  exists outline, allContent. split; [exact Hout|]. split; [exact Hall|].
  apply all_returned in Hall.
  pose proof (contentPromises_fulfilled _ _ _ Hall) as Htitles.
  destruct (sections_split _ _ Htitles)
    as (c0 & mid & cl & -> & Ht0 & Hmid & Hcl).
  destruct (assemble_split _ _ _ _ _ _ _ _ Hasm) as (Hi & Hc & Hl).
  rewrite Hi, Hc, Hl, slice_middle.
  repeat split; try reflexivity.
  - rewrite <- length_sectionTitles, <- Htitles, length_fmap. reflexivity.
  - rewrite <- Hmid, length_fmap. reflexivity.
Qed.

(** A content call that got no answer rejects its promise. *)
Lemma contentPromises_unanswered w outline i :
  (i < length (BookOutline.chapterTitles outline) + 2)%nat ->
  contentResponse w i = None ->
  exists m, contentPromises w outline !! i = Some (Rejected m).
Proof.
  intros Hi Hresp. rewrite contentPromises_lookup, Hresp.
  rewrite <- length_sectionTitles in Hi.
  apply lookup_lt_is_Some_2 in Hi. destruct Hi as [ttl ->].
  simpl. eauto.
Qed.

(** C3. When a content call whose promise settles gets no answer, the run
    assigns no book: the generated-book state stays [null] as reset at the
    start.  It surfaces exactly one error, the content failure naming a
    section whose call failed and whose promise settled (the section of the
    failed call itself when no other call failed), and ends with the
    loading flag cleared. *)
Theorem content_failure_aborts_run w s outline i :
  truthy (trim (title s)) = true ->
  truthy (trim (authorName s)) = true ->
  authorBioOption s = manual \/ is_Some (authorBioResponse w) ->
  outlineResponse w = Some outline ->
  (i < length (BookOutline.chapterTitles outline) + 2)%nat ->
  contentResponse w i = None ->
  i ∈ completionOrder w ->
  booksAssigned (events (handleGenerateBook translations w s)) = []
  /\ (forall s0,
        generatedBook (after (handleGenerateBook translations w s) s0) = None)
  /\ exists j sectionTitle,
       j ∈ completionOrder w
       /\ sectionTitles outline !! j = Some sectionTitle
       /\ contentResponse w j = None
       /\ ((forall k, contentResponse w k = None -> k = i) -> j = i)
       /\ errorsSurfaced (events (handleGenerateBook translations w s))
          = [contentFailure sectionTitle]
       /\ (forall s0,
             error (after (handleGenerateBook translations w s) s0)
             = Some (contentFailure sectionTitle)
             /\ isLoading (after (handleGenerateBook translations w s) s0)
                = false)
       /\ outcome (handleGenerateBook translations w s) = Returned tt.
Proof.
  intros Hv1 Hv2 Hbio Hout Hi Hresp Hin.
  destruct (contentPromises_unanswered w outline i Hi Hresp) as [mi Hpi].
  destruct (allFrom_rejects _ _ (replicate (length (contentPromises w outline)) None)
              _ _ Hin Hpi) as [m Hall].
  destruct (allFrom_threw _ _ _ _ Hall) as (j & Hj & Hpj).
  destruct (contentPromises_rejected _ _ _ _ Hpj) as (ttl & Httl & Hrj & ->).
  fold (Async.all (contentPromises w outline) (completionOrder w)) in Hall.
  assert (Hmsg : forall m0 : jsstring,
            lit "An error occurred: "
            ++ lit "Failed to generate content for chapter: " ++ m0
            = lit "An error occurred: Failed to generate content for chapter: "
              ++ m0) by reflexivity.
  unfold after, handleGenerateBook.
  rewrite Hv1, Hv2. cbn [negb orb].
  unfold generateBookBody, Gemini.generateAuthorBio,
    Gemini.generateBookOutline.
  rewrite Hout.
  assert (Hpaths :
    (authorBioOption s = manual)
    \/ (exists b, authorBioOption s = auto /\ authorBioResponse w = Some b)).
  { destruct Hbio as [Hm|[b Hb]]; [left; exact Hm|].
    destruct (authorBioOption s); [left; reflexivity | right; eauto]. }
  destruct Hpaths as [Hm|(b & Ha & Hb)]; [rewrite Hm | rewrite Ha, Hb];
    repeat (task_simpl; rewrite ?Hall);
    rewrite ?Hmsg;
    (split; [|split; [|exists j, ttl; repeat split; try assumption;
                        try (intros Honly; exact (Honly j Hrj))]]);
    try intros s0;
    rewrite ?booksAssigned_app, ?booksAssigned_calls, ?errorsSurfaced_app,
      ?errorsSurfaced_calls, ?run_app, ?run_calls;
    reflexivity.
Qed.

(** X23. When every content call is answered and every content promise
    settles, in whatever order, the run assigns a book and leaves it in the
    state. *)
Lemma generation_succeeds w s outline :
  truthy (trim (title s)) = true ->
  truthy (trim (authorName s)) = true ->
  authorBioOption s = manual \/ is_Some (authorBioResponse w) ->
  outlineResponse w = Some outline ->
  (forall i, (i < length (BookOutline.chapterTitles outline) + 2)%nat ->
     is_Some (contentResponse w i) /\ i ∈ completionOrder w) ->
  exists book,
    booksAssigned (events (handleGenerateBook translations w s)) = [book]
    /\ outcome (handleGenerateBook translations w s) = Returned tt
    /\ forall s0,
         generatedBook (after (handleGenerateBook translations w s) s0)
         = Some book.
Proof.
  intros Hv1 Hv2 Hbio Hout Hall.
  destruct (all_resolves (contentPromises w outline) (completionOrder w))
    as [allContent Hres].
  { intros i Hi. rewrite length_contentPromises in Hi.
    destruct (Hall i Hi) as [[text Htext] _].
    rewrite contentPromises_lookup, Htext.
    rewrite <- length_sectionTitles in Hi.
    apply lookup_lt_is_Some_2 in Hi. destruct Hi as [ttl ->].
    simpl. eauto. }
  { intros i Hi. rewrite length_contentPromises in Hi. apply Hall, Hi. }
  pose proof (all_returned _ _ _ Hres) as Hps.
  destruct (sections_split _ _ (contentPromises_fulfilled _ _ _ Hps))
    as (c0 & mid & cl & -> & _).
  assert (Hpaths :
    (authorBioOption s = manual)
    \/ (exists b, authorBioOption s = auto /\ authorBioResponse w = Some b)).
  { destruct Hbio as [Hm|[b Hb]]; [left; exact Hm|].
    destruct (authorBioOption s); [left; reflexivity | right; eauto]. }
  unfold after, handleGenerateBook.
  rewrite Hv1, Hv2. cbn [negb orb].
  unfold generateBookBody, Gemini.generateAuthorBio,
    Gemini.generateBookOutline.
  rewrite Hout.
  destruct Hpaths as [Hm|(b & Ha & Hb)]; [rewrite Hm | rewrite Ha, Hb].
  - destruct (assemble_total w s (authorBio s) outline c0 mid cl)
      as [book Hbook].
    exists book.
    repeat (task_simpl; rewrite ?Hres, ?Hbook).
    (split; [|split; [|intros s0]]);
      rewrite ?booksAssigned_app, ?booksAssigned_calls, ?run_app, ?run_calls;
      reflexivity.
  - destruct (assemble_total w s b outline c0 mid cl) as [book Hbook].
    exists book.
    repeat (task_simpl; rewrite ?Hres, ?Hbook).
    (split; [|split; [|intros s0]]);
      rewrite ?booksAssigned_app, ?booksAssigned_calls, ?run_app, ?run_calls;
      reflexivity.
Qed.

(** The generation handler is never left in the [Untyped] outcome: the
    sections it reads from the resolved contents are always there. *)
Lemma handleGenerateBook_typed w s :
  outcome (handleGenerateBook translations w s) <> Untyped.
Proof.
  unfold handleGenerateBook, generateBookBody.
  paths; try discriminate; exfalso;
    try match goal with
        | H : Async.all _ _ = Untyped |- _ => exact (all_typed _ _ H)
        end;
    match goal with
    | H : Async.all _ _ = Returned ?vs |- _ =>
        apply all_returned in H;
        destruct (sections_split _ _ (contentPromises_fulfilled _ _ _ H))
          as (c0 & mid & cl & -> & _)
    end;
    match goal with
    | H : assemble ?w ?s ?bio ?o _ = None |- _ =>
        destruct (assemble_total w s bio o c0 mid cl); congruence
    end.
Qed.

Lemma trim_blank (text : jsstring) :
  Forall (fun c => isWhiteSpace c = true) text ->
  truthy (trim text) = false.
Proof. intros H. apply trim_nil in H. rewrite H. reflexivity. Qed.

(** C6. When the title or the author name is empty, the generation handler
    only sets the error to the form-error message: it sends no request and
    returns, and whatever the state is when the setter runs, nothing but
    the error changes (the generated book, the cover image, the loading
    flag and the suggested titles among the rest). *)
Theorem empty_title_or_author_is_rejected w s :
  title s = [] \/ authorName s = [] ->
  events (handleGenerateBook translations w s)
  = [Write (setError (Some (t translations s formError)))]
  /\ outcome (handleGenerateBook translations w s) = Returned tt
  /\ requestsSent (events (handleGenerateBook translations w s)) = []
  /\ forall s0,
       after (handleGenerateBook translations w s) s0
       = write (setError (Some (t translations s formError))) s0
       /\ generatedBook (after (handleGenerateBook translations w s) s0)
          = generatedBook s0
       /\ coverImage (after (handleGenerateBook translations w s) s0)
          = coverImage s0
       /\ isLoading (after (handleGenerateBook translations w s) s0)
          = isLoading s0
       /\ suggestedTitles (after (handleGenerateBook translations w s) s0)
          = suggestedTitles s0.
Proof.
  intros Hempty.
  assert (Hcheck : negb (truthy (trim (title s)))
                   || negb (truthy (trim (authorName s))) = true).
  { destruct Hempty as [-> | ->]; [reflexivity|].
    apply orb_true_r. }
  unfold after, handleGenerateBook. rewrite Hcheck.
  repeat split.
Qed.

(** C10. A title or an author name made of white space only passes the
    test of the generate button, which looks at emptiness, and is then
    refused by the handler, which looks at the trimmed text: the button
    is enabled, and the handler only reports the form error, without any
    request. *)
Theorem blank_title_or_author_is_rejected w s :
  truthy (title s) = true ->
  truthy (authorName s) = true ->
  isLoading s = false ->
  isSuggesting s = false ->
  Forall (fun c => isWhiteSpace c = true) (title s)
  \/ Forall (fun c => isWhiteSpace c = true) (authorName s) ->
  generateDisabled s = false
  /\ events (handleGenerateBook translations w s)
     = [Write (setError (Some (t translations s formError)))]
  /\ requestsSent (events (handleGenerateBook translations w s)) = []
  /\ outcome (handleGenerateBook translations w s) = Returned tt.
Proof.
  intros Ht Ha Hl Hs Hblank.
  assert (Hcheck : negb (truthy (trim (title s)))
                   || negb (truthy (trim (authorName s))) = true).
  { destruct Hblank as [H|H]; rewrite (trim_blank _ H);
      [reflexivity | apply orb_true_r]. }
  unfold generateDisabled, handleGenerateBook.
  rewrite Hcheck, Ht, Ha, Hl, Hs. repeat split.
Qed.

End Generation.

(* ================================================================== *)
(** ** Cover and title suggestions *)
(* ================================================================== *)

Section CoverAndSuggestions.

Import App Spec.

Variable translations : LanguageKey -> TranslationKey -> jsstring.

(** A state keeps its title through setters other than [setTitle]. *)
Lemma title_kept setters s :
  Forall (fun setter => keepsTitle setter = true) setters ->
  title (foldl (fun st w => write w st) s setters) = title s.
Proof.
  intros H. revert s. induction H as [|setter setters Hk _ IH]; intros s;
    [reflexivity|].
  simpl. rewrite IH. destruct setter; try discriminate; reflexivity.
Qed.

Lemma handleGenerateBook_keepsTitle w s :
  Forall (fun setter => keepsTitle setter = true)
         (settersCalled (events (handleGenerateBook translations w s))).
Proof.
  unfold handleGenerateBook, generateBookBody.
  paths; rewrite ?settersCalled_app, ?settersCalled_calls;
    cbn [settersCalled omap list_omap app]; repeat constructor.
Qed.

Lemma handleGenerateCover_keepsTitle w s feedback :
  Forall (fun setter => keepsTitle setter = true)
         (settersCalled (events (handleGenerateCover w s feedback))).
Proof.
  unfold handleGenerateCover.
  paths; cbn [settersCalled omap list_omap app]; repeat constructor.
Qed.

(** C7. With a book generated, a cover request that fails clears and sets
    the error and raises and lowers the cover loading flag, nothing else:
    the state is the one before with the error set and the flag down, so
    the book is the same, exports to the same document, and the cover
    image shown before is still there. *)
Theorem failed_cover_keeps_book_and_cover w s feedback book :
  generatedBook s = Some book ->
  coverResponse w = None ->
  settersCalled (events (handleGenerateCover w s feedback))
  = [setIsCoverLoading true; setError None;
     setError (Some (lit "Failed to generate cover: "
                     ++ lit "Failed to generate cover image."));
     setIsCoverLoading false]
  /\ (forall s0,
        after (handleGenerateCover w s feedback) s0
        = write (setIsCoverLoading false)
            (write (setError
                      (Some (lit "Failed to generate cover: "
                             ++ lit "Failed to generate cover image."))) s0))
  /\ generatedBook (after (handleGenerateCover w s feedback) s) = Some book
  /\ Docx.children <$> generatedBook (after (handleGenerateCover w s feedback) s)
     = Some (Docx.children book)
  /\ coverImage (after (handleGenerateCover w s feedback) s) = coverImage s.
Proof.
  intros Hbook Hcover.
  assert (Hafter : forall s0,
    after (handleGenerateCover w s feedback) s0
    = write (setIsCoverLoading false)
        (write (setError
                  (Some (lit "Failed to generate cover: "
                         ++ lit "Failed to generate cover image."))) s0)).
  { intros s0. unfold after, handleGenerateCover, Gemini.generateCoverImage.
    rewrite Hbook, Hcover. task_simpl. destruct s0; reflexivity. }
  split; [|split; [exact Hafter|]].
  - unfold handleGenerateCover, Gemini.generateCoverImage.
    rewrite Hbook, Hcover. task_simpl. reflexivity.
  - rewrite !Hafter. simpl. rewrite Hbook. auto.
Qed.

(** C8. Asking for title suggestions calls the setters of the suggesting
    flag, the suggestion list and the error only, so the title is the
    same after as before, whatever the answer; the generation and cover
    handlers and the clear button keep it too; selecting a suggestion
    makes it the title and empties the list. *)
Theorem suggestions_never_change_title w s :
  Forall (fun setter =>
            match setter with
            | setIsSuggesting _ | setSuggestedTitles _ | setError _ => True
            | _ => False
            end)
         (settersCalled (events (handleSuggestTitles w s)))
  /\ (forall s0, title (after (handleSuggestTitles w s) s0) = title s0)
  /\ (forall s0,
        title (after (handleGenerateBook translations w s) s0) = title s0)
  /\ (forall feedback s0,
        title (after (handleGenerateCover w s feedback) s0) = title s0)
  /\ (forall s0, title (after clearSuggestions s0) = title s0)
  /\ (forall suggestion s0,
        title (after (selectSuggestion suggestion) s0) = suggestion
        /\ suggestedTitles (after (selectSuggestion suggestion) s0) = []).
Proof.
  assert (Hsetters :
    Forall (fun setter =>
              match setter with
              | setIsSuggesting _ | setSuggestedTitles _ | setError _ => True
              | _ => False
              end)
           (settersCalled (events (handleSuggestTitles w s)))).
  { unfold handleSuggestTitles, Gemini.generateAlternativeTitles.
    paths; cbn [settersCalled omap list_omap app]; repeat constructor. }
  split; [exact Hsetters|]. repeat split.
  - intros s0. unfold after. rewrite run_setters. apply title_kept.
    eapply Forall_impl; [exact Hsetters|].
    intros setter; destruct setter; simpl; tauto.
  - intros s0. unfold after. rewrite run_setters. apply title_kept.
    apply handleGenerateBook_keepsTitle.
  - intros feedback s0. unfold after. rewrite run_setters. apply title_kept.
    apply handleGenerateCover_keepsTitle.
Qed.

(** C9. With a book generated, a cover request that succeeds empties the
    feedback text (and shows the new image); one that fails leaves the
    feedback text as it is. *)
Theorem cover_feedback_cleared_on_success_only w s feedback book :
  generatedBook s = Some book ->
  forall s0,
    (forall imageBase64,
       coverResponse w = Some imageBase64 ->
       coverFeedback (after (handleGenerateCover w s feedback) s0) = []
       /\ coverImage (after (handleGenerateCover w s feedback) s0)
          = Some (lit "data:image/jpeg;base64," ++ imageBase64))
    /\ (coverResponse w = None ->
        coverFeedback (after (handleGenerateCover w s feedback) s0)
        = coverFeedback s0).
Proof.
  intros Hbook s0.
  unfold after, handleGenerateCover, Gemini.generateCoverImage.
  rewrite Hbook. split.
  - intros imageBase64 ->. task_simpl. split; reflexivity.
  - intros ->. task_simpl. reflexivity.
Qed.

End CoverAndSuggestions.

(* ================================================================== *)
(** ** The sample session *)
(* ================================================================== *)

Section SampleSession.

Import App Spec.

Lemma chapter_titles_follow_outline_witness :
  Sample.book
    ∈ booksAssigned
        (events (handleGenerateBook Sample.table Sample.answered Sample.form))
  /\ exists outline,
       outlineResponse Sample.answered = Some outline
       /\ Chapter.title <$> Book.chapters Sample.book
          = BookOutline.chapterTitles outline
       /\ (forall i, Chapter.title <$> Book.chapters Sample.book !! i
                     = BookOutline.chapterTitles outline !! i)
       /\ (forall order book',
             book' ∈ booksAssigned
                       (events (handleGenerateBook Sample.table
                                  (settlingAs order Sample.answered)
                                  Sample.form)) ->
             book' = Sample.book).
Proof.
  split.
  - vm_compute. constructor.
  - apply (chapter_titles_follow_outline Sample.table Sample.answered
             Sample.form Sample.book).
    vm_compute. constructor.
Defined.

Lemma chapters_exclude_introduction_and_conclusion_witness :
  Sample.book
    ∈ booksAssigned
        (events (handleGenerateBook Sample.table Sample.answered Sample.form))
  /\ exists outline allContent,
       outlineResponse Sample.answered = Some outline
       /\ Async.all (contentPromises Sample.answered outline)
                    (completionOrder Sample.answered)
          = Returned allContent
       /\ length allContent
          = (length (BookOutline.chapterTitles outline) + 2)%nat
       /\ length (Book.chapters Sample.book)
          = length (BookOutline.chapterTitles outline)
       /\ Book.chapters Sample.book = slice allContent 1 (-1)
       /\ allContent
          = Book.introduction Sample.book :: Book.chapters Sample.book
            ++ [Book.conclusion Sample.book].
Proof.
  split.
  - vm_compute. constructor.
  - apply (chapters_exclude_introduction_and_conclusion Sample.table
             Sample.answered Sample.form Sample.book).
    vm_compute. constructor.
Defined.

Lemma content_failure_aborts_run_witness :
  truthy (trim (title Sample.form)) = true
  /\ truthy (trim (authorName Sample.form)) = true
  /\ (authorBioOption Sample.form = manual
      \/ is_Some (authorBioResponse Sample.failing))
  /\ outlineResponse Sample.failing = Some Sample.outline
  /\ (2 < length (BookOutline.chapterTitles Sample.outline) + 2)%nat
  /\ contentResponse Sample.failing 2 = None
  /\ 2%nat ∈ completionOrder Sample.failing
  /\ booksAssigned
       (events (handleGenerateBook Sample.table Sample.failing Sample.form))
     = []
  /\ (forall s0,
        generatedBook
          (after (handleGenerateBook Sample.table Sample.failing Sample.form)
                 s0) = None)
  /\ exists j sectionTitle,
       j ∈ completionOrder Sample.failing
       /\ sectionTitles Sample.outline !! j = Some sectionTitle
       /\ contentResponse Sample.failing j = None
       /\ ((forall k, contentResponse Sample.failing k = None -> k = 2%nat)
           -> j = 2%nat)
       /\ errorsSurfaced
            (events (handleGenerateBook Sample.table Sample.failing
                       Sample.form))
          = [contentFailure sectionTitle]
       /\ (forall s0,
             error (after (handleGenerateBook Sample.table Sample.failing
                             Sample.form) s0)
             = Some (contentFailure sectionTitle)
             /\ isLoading (after (handleGenerateBook Sample.table
                                    Sample.failing Sample.form) s0)
                = false)
       /\ outcome (handleGenerateBook Sample.table Sample.failing Sample.form)
          = Returned tt.
Proof.
  assert (H1 : truthy (trim (title Sample.form)) = true) by reflexivity.
  assert (H2 : truthy (trim (authorName Sample.form)) = true) by reflexivity.
  assert (H3 : authorBioOption Sample.form = manual
               \/ is_Some (authorBioResponse Sample.failing))
    by (left; reflexivity).
  assert (H4 : outlineResponse Sample.failing = Some Sample.outline)
    by reflexivity.
  assert (H5 : (2 < length (BookOutline.chapterTitles Sample.outline) + 2)%nat)
    by (simpl; lia).
  assert (H6 : contentResponse Sample.failing 2 = None) by reflexivity.
  assert (H7 : 2%nat ∈ completionOrder Sample.failing)
    by (simpl; repeat constructor).
  repeat (split; [assumption|]).
  exact (content_failure_aborts_run Sample.table Sample.failing Sample.form
           Sample.outline 2%nat H1 H2 H3 H4 H5 H6 H7).
Defined.

Lemma empty_title_or_author_is_rejected_witness :
  (title (write (setTitle []) Sample.form) = []
   \/ authorName (write (setTitle []) Sample.form) = [])
  /\ events (handleGenerateBook Sample.table Sample.answered
               (write (setTitle []) Sample.form))
     = [Write (setError
                 (Some (t Sample.table (write (setTitle []) Sample.form)
                          formError)))]
  /\ requestsSent
       (events (handleGenerateBook Sample.table Sample.answered
                  (write (setTitle []) Sample.form)))
     = [].
Proof.
  assert (H : title (write (setTitle []) Sample.form) = []
              \/ authorName (write (setTitle []) Sample.form) = [])
    by (left; reflexivity).
  split; [exact H|].
  destruct (empty_title_or_author_is_rejected Sample.table Sample.answered
              (write (setTitle []) Sample.form) H) as (He & _ & Hr & _).
  split; [exact He | exact Hr].
Defined.

Lemma blank_title_or_author_is_rejected_witness :
  truthy (title (write (setTitle (lit "  ")) Sample.form)) = true
  /\ generateDisabled (write (setTitle (lit "  ")) Sample.form) = false
  /\ events (handleGenerateBook Sample.table Sample.answered
               (write (setTitle (lit "  ")) Sample.form))
     = [Write (setError
                 (Some (t Sample.table
                          (write (setTitle (lit "  ")) Sample.form)
                          formError)))].
Proof.
  assert (H1 : truthy (title (write (setTitle (lit "  ")) Sample.form)) = true)
    by reflexivity.
  assert (H2 : truthy (authorName (write (setTitle (lit "  ")) Sample.form))
               = true) by reflexivity.
  assert (H3 : isLoading (write (setTitle (lit "  ")) Sample.form) = false)
    by reflexivity.
  assert (H4 : isSuggesting (write (setTitle (lit "  ")) Sample.form) = false)
    by reflexivity.
  assert (H5 : Forall (fun c => isWhiteSpace c = true)
                 (title (write (setTitle (lit "  ")) Sample.form))
               \/ Forall (fun c => isWhiteSpace c = true)
                    (authorName (write (setTitle (lit "  ")) Sample.form)))
    by (left; vm_compute; repeat constructor).
  split; [exact H1|].
  destruct (blank_title_or_author_is_rejected Sample.table Sample.answered
              (write (setTitle (lit "  ")) Sample.form) H1 H2 H3 H4 H5)
    as (Hd & He & _).
  split; [exact Hd | exact He].
Defined.

Lemma failed_cover_keeps_book_and_cover_witness :
  generatedBook Sample.done = Some Sample.book
  /\ coverResponse Sample.failing = None
  /\ generatedBook
       (after (handleGenerateCover Sample.failing Sample.done
                 (Some (lit "darker"))) Sample.done)
     = Some Sample.book
  /\ coverImage
       (after (handleGenerateCover Sample.failing Sample.done
                 (Some (lit "darker"))) Sample.done)
     = coverImage Sample.done.
Proof.
  assert (H1 : generatedBook Sample.done = Some Sample.book) by reflexivity.
  assert (H2 : coverResponse Sample.failing = None) by reflexivity.
  split; [exact H1|]. split; [exact H2|].
  destruct (failed_cover_keeps_book_and_cover Sample.failing Sample.done
              (Some (lit "darker")) Sample.book H1 H2)
    as (_ & _ & Hb & _ & Hc).
  split; [exact Hb | exact Hc].
Defined.

Lemma cover_feedback_cleared_on_success_only_witness :
  generatedBook Sample.done = Some Sample.book
  /\ coverFeedback
       (after (handleGenerateCover Sample.answered Sample.done
                 (Some (lit "darker"))) Sample.done)
     = []
  /\ coverFeedback
       (after (handleGenerateCover Sample.failing Sample.done
                 (Some (lit "darker"))) Sample.done)
     = lit "darker".
Proof.
  assert (H1 : generatedBook Sample.done = Some Sample.book) by reflexivity.
  split; [exact H1|]. split.
  - destruct (cover_feedback_cleared_on_success_only Sample.answered
                Sample.done (Some (lit "darker")) Sample.book H1 Sample.done)
      as (Hs & _).
    destruct (Hs (lit "QUJD") eq_refl) as (Hf & _). exact Hf.
  - destruct (cover_feedback_cleared_on_success_only Sample.failing
                Sample.done (Some (lit "darker")) Sample.book H1 Sample.done)
      as (_ & Hf).
    exact (Hf eq_refl).
Defined.

End SampleSession.

(* ================================================================== *)
(** ** Response cleaning *)
(* ================================================================== *)

Section CleaningFacts.

Import Text.

Lemma trimStart_blank_app (blank rest : jsstring) :
  Forall (fun c => isWhiteSpace c = true) blank ->
  trimStart (blank ++ rest) = trimStart rest.
Proof.
  induction 1 as [|c blank Hc _ IH]; [reflexivity|].
  simpl. rewrite Hc. exact IH.
Qed.

Lemma trimStart_visible_head (c : N) (rest : jsstring) :
  isWhiteSpace c = false -> trimStart (c :: rest) = c :: rest.
Proof. intros Hc. simpl. rewrite Hc. reflexivity. Qed.

(** Trimming removes the white space around a text that starts and ends
    with something else, and nothing more. *)
Lemma trim_around (before after middle : jsstring) (first last : N) :
  Forall (fun c => isWhiteSpace c = true) before ->
  Forall (fun c => isWhiteSpace c = true) after ->
  isWhiteSpace first = false ->
  isWhiteSpace last = false ->
  trim (before ++ first :: middle ++ last :: after)
  = first :: middle ++ [last].
Proof.
  intros Hb Ha Hf Hl. unfold trim, trimEnd.
  rewrite trimStart_blank_app by exact Hb.
  rewrite trimStart_visible_head by exact Hf.
  change (first :: middle ++ last :: after)
    with ((first :: middle) ++ last :: after).
  rewrite reverse_app, reverse_cons, <- app_assoc.
  rewrite trimStart_blank_app by (apply Forall_reverse; exact Ha).
  simpl app. rewrite trimStart_visible_head by exact Hl.
  rewrite reverse_cons, reverse_involutive. reflexivity.
Qed.

Lemma stripPrefix_app (p s : jsstring) : stripPrefix p (p ++ s) = Some s.
Proof.
  induction p as [|a p IH]; [reflexivity|].
  simpl. rewrite N.eqb_refl. exact IH.
Qed.

Lemma stripPrefix_Some (p s rest : jsstring) :
  stripPrefix p s = Some rest -> s = p ++ rest.
Proof.
  revert s. induction p as [|a p IH]; intros s; simpl.
  - intros [= ->]. reflexivity.
  - destruct s as [|b s]; [discriminate|].
    destruct (N.eqb_spec a b) as [->|]; [|discriminate].
    intros H. rewrite (IH _ H). reflexivity.
Qed.

Lemma stripPrefix_head_differs (a b : N) (p s : jsstring) :
  a <> b -> stripPrefix (a :: p) (b :: s) = None.
Proof.
  intros Hne. simpl. destruct (N.eqb_spec a b); [contradiction | reflexivity].
Qed.

Lemma dropFenceClose_fenced (body : jsstring) :
  dropFenceClose (body ++ [LF] ++ fence) = body.
Proof.
  unfold dropFenceClose.
  rewrite !reverse_app.
  change (reverse fence) with fence. change (reverse [LF]) with [LF].
  rewrite app_assoc, stripPrefix_app. apply reverse_involutive.
Qed.

(** X1. A response wrapped in a fence with the json tag, each fence on a
    line of its own, with white space around, is cleaned to exactly what
    is between the fences. *)
Theorem cleanedJson_unwraps_fenced (before after body : jsstring) :
  Forall (fun c => isWhiteSpace c = true) before ->
  Forall (fun c => isWhiteSpace c = true) after ->
  cleanedJson (before ++ fence ++ lit "json" ++ [LF] ++ body ++ [LF]
               ++ fence ++ after)
  = body.
Proof.
  intros Hb Ha. unfold cleanedJson.
  change (before ++ fence ++ lit "json" ++ [LF] ++ body ++ [LF] ++ fence
          ++ after)
    with (before ++ 96 :: ([96; 96] ++ lit "json" ++ [LF] ++ body ++ [LF]
                           ++ [96; 96] ++ 96 :: after)).
  replace ([96; 96] ++ lit "json" ++ [LF] ++ body ++ [LF] ++ [96; 96]
           ++ 96 :: after)
    with (([96; 96] ++ lit "json" ++ [LF] ++ body ++ [LF] ++ [96; 96])
          ++ 96 :: after)
    by (rewrite <- !app_assoc; reflexivity).
  rewrite trim_around by (assumption || reflexivity).
  change (96 :: ([96; 96] ++ lit "json" ++ [LF] ++ body ++ [LF] ++ [96; 96])
          ++ [96])
    with ((96 :: [96; 96] ++ lit "json" ++ [LF] ++ body ++ [LF] ++ [96; 96])
          ++ [96]).
  replace ((96 :: [96; 96] ++ lit "json" ++ [LF] ++ body ++ [LF] ++ [96; 96])
           ++ [96])
    with ((fence ++ lit "json") ++ LF :: (body ++ [LF] ++ fence))
    by (unfold fence; simpl; rewrite <- !app_assoc; reflexivity).
  unfold dropFenceOpen. rewrite stripPrefix_app.
  rewrite N.eqb_refl. apply dropFenceClose_fenced.
Qed.

(** X2. A response that, once trimmed, neither starts nor ends with a
    backtick (a bare JSON object, say) is only trimmed. *)
Theorem cleanedJson_trims_unfenced (before after middle : jsstring)
    (first last : N) :
  Forall (fun c => isWhiteSpace c = true) before ->
  Forall (fun c => isWhiteSpace c = true) after ->
  isWhiteSpace first = false -> isWhiteSpace last = false ->
  first <> 96 -> last <> 96 ->
  cleanedJson (before ++ first :: middle ++ last :: after)
  = first :: middle ++ [last].
Proof.
  intros Hb Ha Hf Hl Hf96 Hl96. unfold cleanedJson.
  rewrite trim_around by assumption.
  unfold dropFenceOpen.
  change (fence ++ lit "json") with (96 :: [96; 96] ++ lit "json").
  rewrite stripPrefix_head_differs by congruence.
  unfold dropFenceClose.
  change (first :: middle ++ [last]) with ((first :: middle) ++ [last]).
  rewrite reverse_app. change (reverse [last]) with [last]. simpl app.
  change (fence ++ [LF]) with (96 :: [96; 96; LF]).
  rewrite stripPrefix_head_differs by congruence.
  unfold fence. rewrite stripPrefix_head_differs by congruence.
  reflexivity.
Qed.

(** X3. A fence without the json tag is not recognised at the start: only
    the closing fence goes, and the cleaned text still starts with the
    three backticks. *)
Theorem cleanedJson_keeps_untagged_fence (body : jsstring) :
  cleanedJson (fence ++ [LF] ++ body ++ [LF] ++ fence)
  = fence ++ [LF] ++ body.
Proof.
  unfold cleanedJson.
  assert (Htrim : trim (fence ++ [LF] ++ body ++ [LF] ++ fence)
                  = fence ++ [LF] ++ body ++ [LF] ++ fence).
  { change (fence ++ [LF] ++ body ++ [LF] ++ fence)
      with ([] ++ 96 :: ([96; 96; LF] ++ body ++ [LF; 96; 96] ++ 96 :: [])).
    replace ([96; 96; LF] ++ body ++ [LF; 96; 96] ++ 96 :: [])
      with (([96; 96; LF] ++ body ++ [LF; 96; 96]) ++ 96 :: [])
      by (rewrite <- !app_assoc; reflexivity).
    rewrite trim_around by (constructor || reflexivity).
    simpl. rewrite <- !app_assoc. reflexivity. }
  rewrite Htrim.
  unfold dropFenceOpen.
  assert (Hopen : stripPrefix (fence ++ lit "json")
                    (fence ++ [LF] ++ body ++ [LF] ++ fence) = None)
    by reflexivity.
  rewrite Hopen.
  replace (fence ++ [LF] ++ body ++ [LF] ++ fence)
    with ((fence ++ [LF] ++ body) ++ [LF] ++ fence)
    by (rewrite <- !app_assoc; reflexivity).
  apply dropFenceClose_fenced.
Qed.

End CleaningFacts.

(* ================================================================== *)
(** ** Downloads *)
(* ================================================================== *)

Section DownloadFacts.

Import Text App View.

Lemma replaceAll_length from to s : length (replaceAll from to s) = length s.
Proof. apply length_fmap. Qed.

Lemma replaceAll_lookup from to s i :
  replaceAll from to s !! i
  = (fun c => if c =? from then to else c) <$> s !! i.
Proof. apply list_lookup_fmap. Qed.

Lemma replaceAll_gone from to s : from <> to -> from ∉ replaceAll from to s.
Proof.
  intros Hne Hin. apply list_elem_of_fmap in Hin.
  destruct Hin as (c & Hc & _).
  destruct (N.eqb_spec c from); congruence.
Qed.

Lemma space_not_in_literal_docx : 32 ∉ (lit ".docx").
Proof. intros H. repeat (apply elem_of_cons in H; destruct H as [H|H];
                         [discriminate|]). apply elem_of_nil in H. exact H. Qed.

Lemma space_not_in_literal_cover : 32 ∉ (lit "_cover.jpg").
Proof. intros H. repeat (apply elem_of_cons in H; destruct H as [H|H];
                         [discriminate|]). apply elem_of_nil in H. exact H. Qed.

(** X4. The file name of the exported document is the title with every
    space (U+0020) turned into an underscore, followed by ".docx": it has
    no space, every other code unit of the title is kept where it was
    (other white space and path separators included), and nothing is
    dropped. *)
Theorem docxName_replaces_spaces_only (book : Book.t) :
  (32 ∉ docxName book)
  /\ length (docxName book) = (length (Book.title book) + 5)%nat
  /\ (forall i c,
        Book.title book !! i = Some c ->
        docxName book !! i = Some (if c =? 32 then 95 else c))
  /\ drop (length (Book.title book)) (docxName book) = lit ".docx".
Proof.
  unfold docxName. split; [|split; [|split]].
  - intros H. apply elem_of_app in H. destruct H as [H|H].
    + revert H. apply replaceAll_gone. discriminate.
    + exact (space_not_in_literal_docx H).
  - rewrite length_app, replaceAll_length. reflexivity.
  - intros i c Hi. etransitivity.
    + apply lookup_app_l. rewrite replaceAll_length.
      eapply lookup_lt_Some, Hi.
    + etransitivity; [apply replaceAll_lookup|]. rewrite Hi. reflexivity.
  - rewrite <- (replaceAll_length 32 95). apply drop_app_length.
Qed.

(** X5. The cover is downloaded exactly when a cover image (a non-empty
    one) and a book are in the state; the anchor then points at the stored
    image and is named after the book's title, spaces turned into
    underscores, followed by "_cover.jpg". *)
Theorem handleDownloadCover_needs_cover_and_book (s : AppState) :
  (handleDownloadCover s = None
   <-> (coverImage s = None \/ coverImage s = Some []
        \/ generatedBook s = None))
  /\ forall anchor,
       handleDownloadCover s = Some anchor ->
       coverImage s = Some (href anchor)
       /\ (32 ∉ download anchor)
       /\ exists book,
            generatedBook s = Some book
            /\ download anchor
               = replaceAll 32 95 (Book.title book) ++ lit "_cover.jpg".
Proof.
  unfold handleDownloadCover. split.
  - destruct (coverImage s) as [[|c image]|], (generatedBook s) as [book|];
      simpl; split; intros H; try reflexivity; try discriminate; auto.
    destruct H as [H|[H|H]]; discriminate.
  - intros anchor.
    destruct (coverImage s) as [[|c image]|], (generatedBook s) as [book|];
      simpl; try discriminate.
    intros [= <-]. simpl. split; [reflexivity|]. split.
    + intros H. apply elem_of_app in H. destruct H as [H|H].
      * revert H. apply replaceAll_gone. discriminate.
      * exact (space_not_in_literal_cover H).
    + exists book. split; reflexivity.
Qed.

End DownloadFacts.

(* ================================================================== *)
(** ** More on book generation *)
(* ================================================================== *)

Section GenerationMore.

Import App Spec View.

Variable translations : LanguageKey -> TranslationKey -> jsstring.

Lemma requestsSent_app e1 e2 :
  requestsSent (e1 ++ e2) = requestsSent e1 ++ requestsSent e2.
Proof. apply omap_app. Qed.

Lemma requestsSent_calls rs : requestsSent (Call <$> rs) = rs.
Proof.
  induction rs as [|r rs IH]; [reflexivity|].
  rewrite fmap_cons. change (r :: requestsSent (Call <$> rs) = r :: rs).
  f_equal. exact IH.
Qed.


(** X7. Past validation, the requests of a generation run go out in the
    order of their dependencies, whatever the answers: the bio request
    when the bio is to be generated; then, unless that failed, the outline
    request; then, when an outline came back, one content request per
    section (introduction, chapters in the outline's order, conclusion),
    N + 2 in all, each with the outline's synopsis.  How the content
    promises settle changes nothing to what is sent. *)
Theorem generation_requests w s :
  truthy (trim (title s)) = true ->
  truthy (trim (authorName s)) = true ->
  requestsSent (events (handleGenerateBook translations w s))
  = match authorBioOption s, authorBioResponse w with
    | auto, None =>
        [AuthorBio (authorName s) (title s) (category s) (language s)]
    | choice, _ =>
        match choice with
        | auto =>
            [AuthorBio (authorName s) (title s) (category s) (language s)]
        | manual => []
        end
        ++ Outline (generationConfig s)
           :: match outlineResponse w with
              | Some outline =>
                  (fun sectionTitle =>
                     ChapterContent (generationConfig s) sectionTitle
                                    (BookOutline.synopsis outline))
                  <$> ([BookOutline.introductionTitle outline]
                       ++ BookOutline.chapterTitles outline
                       ++ [BookOutline.conclusionTitle outline])
              | None => []
              end
    end.
Proof.
  intros Hv1 Hv2. unfold handleGenerateBook.
  rewrite Hv1, Hv2. cbn [negb orb].
  unfold generateBookBody, Gemini.generateAuthorBio,
    Gemini.generateBookOutline.
  paths; rewrite ?requestsSent_app, ?requestsSent_calls;
    cbn [requestsSent omap list_omap app]; rewrite ?app_nil_r;
    reflexivity.
Qed.

(** X8. Past validation, a step that fails before the content stage is
    named by the error the run leaves, and the run stops there.  When the
    bio is to be generated and its request fails, the bio request is the
    only one sent and the error is that of the bio wrapper; when the bio
    step is passed (bio typed in, or generated) and the outline request
    fails, the outline request is the last one sent and the error is that
    of the outline wrapper.  Either way no book is set and the loading
    flag is down.  (The content stage is C3's.) *)
Theorem generation_failure_names_step w s s0 :
  truthy (trim (title s)) = true ->
  truthy (trim (authorName s)) = true ->
  (authorBioOption s = auto ->
   authorBioResponse w = None ->
   requestsSent (events (handleGenerateBook translations w s))
   = [AuthorBio (authorName s) (title s) (category s) (language s)]
   /\ error (after (handleGenerateBook translations w s) s0)
      = Some (lit "An error occurred: "
              ++ lit "Failed to generate author bio.")
   /\ generatedBook (after (handleGenerateBook translations w s) s0) = None
   /\ isLoading (after (handleGenerateBook translations w s) s0) = false)
  /\ (authorBioOption s = manual \/ is_Some (authorBioResponse w) ->
      outlineResponse w = None ->
      requestsSent (events (handleGenerateBook translations w s))
      = match authorBioOption s with
        | auto =>
            [AuthorBio (authorName s) (title s) (category s) (language s)]
        | manual => []
        end
        ++ [Outline (generationConfig s)]
      /\ error (after (handleGenerateBook translations w s) s0)
         = Some (lit "An error occurred: "
                 ++ lit "Failed to generate book outline. Please check the console for details.")
      /\ generatedBook (after (handleGenerateBook translations w s) s0)
         = None
      /\ isLoading (after (handleGenerateBook translations w s) s0)
         = false).
Proof.
  intros Hv1 Hv2. split.
  - intros Hauto Hbio. unfold after, handleGenerateBook.
    rewrite Hv1, Hv2. cbn [negb orb].
    unfold generateBookBody, Gemini.generateAuthorBio.
    rewrite Hauto, Hbio.
    paths; rewrite ?run_app, ?run_calls, ?requestsSent_app,
             ?requestsSent_calls;
      repeat split; reflexivity.
  - intros Hpast Houtline. unfold after, handleGenerateBook.
    rewrite Hv1, Hv2. cbn [negb orb].
    unfold generateBookBody, Gemini.generateAuthorBio,
      Gemini.generateBookOutline.
    rewrite Houtline.
    destruct (authorBioOption s) eqn:Hchoice.
    + paths; rewrite ?run_app, ?run_calls, ?requestsSent_app,
               ?requestsSent_calls;
        repeat split; reflexivity.
    + destruct Hpast as [Hmanual | [bio Hbio]]; [discriminate|].
      rewrite Hbio.
      paths; rewrite ?run_app, ?run_calls, ?requestsSent_app,
               ?requestsSent_calls;
        repeat split; reflexivity.
Qed.




Lemma loadingWrites_app e1 e2 :
  Terms.loadingWrites (e1 ++ e2)
  = Terms.loadingWrites e1 ++ Terms.loadingWrites e2.
Proof. apply omap_app. Qed.

Lemma loadingWrites_calls rs : Terms.loadingWrites (Call <$> rs) = [].
Proof. induction rs as [|r rs IH]; [reflexivity|]. rewrite fmap_cons. exact IH. Qed.

Lemma last_cons_default {A} (x : A) (l : list A) (d d' : A) :
  List.last (x :: l) d = List.last (x :: l) d'.
Proof.
  revert x. induction l as [|y l IH]; intros x; [reflexivity|].
  change (List.last (y :: l) d = List.last (y :: l) d'). apply IH.
Qed.

(** The loading flag after a trace is the last value the trace gave it. *)
Lemma isLoading_run events s0 :
  isLoading (run events s0)
  = List.last (Terms.loadingWrites events) (isLoading s0).
Proof.
  revert s0. induction events as [|[setter|r] events IH]; intros s0;
    [reflexivity | | apply IH].
  change (run (Write setter :: events) s0)
    with (run events (write setter s0)).
  rewrite IH. destruct setter; try reflexivity.
  change (Terms.loadingWrites (Write (setIsLoading v) :: events))
    with (v :: Terms.loadingWrites events).
  simpl. destruct (Terms.loadingWrites events) as [|b bs]; [reflexivity|].
  apply last_cons_default.
Qed.

(** Past validation the loading flag is raised first thing, and lowered
    only at the end, if the run gets there. *)
Lemma generation_starts_loading w s :
  truthy (trim (title s)) = true ->
  truthy (trim (authorName s)) = true ->
  exists rest,
    events (handleGenerateBook translations w s)
    = Write (setIsLoading true) :: rest.
Proof.
  intros Hv1 Hv2. unfold handleGenerateBook.
  rewrite Hv1, Hv2. cbn [negb orb]. task_simpl.
  cbn [app]. eexists. reflexivity.
Qed.

Lemma generation_loadingWrites w s :
  truthy (trim (title s)) = true ->
  truthy (trim (authorName s)) = true ->
  (Terms.loadingWrites (events (handleGenerateBook translations w s))
   = [true; false]
   /\ outcome (handleGenerateBook translations w s) = Returned tt)
  \/ (Terms.loadingWrites (events (handleGenerateBook translations w s))
      = [true]
      /\ outcome (handleGenerateBook translations w s) <> Returned tt).
Proof.
  intros Hv1 Hv2. unfold handleGenerateBook.
  rewrite Hv1, Hv2. cbn [negb orb].
  unfold generateBookBody, Gemini.generateAuthorBio,
    Gemini.generateBookOutline.
  paths; rewrite ?loadingWrites_app, ?loadingWrites_calls;
    first [ left; split; reflexivity
          | right; split; [reflexivity | discriminate] ].
Qed.

(** X10. Past validation, at every point of a generation run after its
    first setter call and before the loading flag is lowered at the end
    (at every point at all when the run never resumes), the loading flag
    is up: the generate and suggest buttons are disabled and the result
    panel is hidden. *)
Theorem loading_flag_up_during_run w s s0 before rest :
  truthy (trim (title s)) = true ->
  truthy (trim (authorName s)) = true ->
  events (handleGenerateBook translations w s) = before ++ rest ->
  before <> [] ->
  Write (setIsLoading false) ∈ rest
  \/ outcome (handleGenerateBook translations w s) = Suspended ->
  isLoading (run before s0) = true
  /\ generateDisabled (run before s0) = true
  /\ suggestDisabled (run before s0) = true
  /\ resultShown (run before s0) = false.
Proof.
  intros Hv1 Hv2 Hsplit Hne Hwhen.
  assert (Hup : isLoading (run before s0) = true).
  { destruct (generation_starts_loading w s Hv1 Hv2) as (tail & Hev).
    assert (Htail :
      (Terms.loadingWrites tail = [false]
       /\ outcome (handleGenerateBook translations w s) = Returned tt)
      \/ (Terms.loadingWrites tail = []
          /\ outcome (handleGenerateBook translations w s) <> Returned tt)).
    { destruct (generation_loadingWrites w s Hv1 Hv2) as [[H1 H2]|[H1 H2]];
        rewrite Hev in H1;
        change (Terms.loadingWrites (Write (setIsLoading true) :: tail))
          with (true :: Terms.loadingWrites tail) in H1;
        injection H1 as H1; [left | right]; split; assumption. }
    rewrite Hev in Hsplit.
    destruct before as [|e before]; [contradiction|].
    injection Hsplit as <- Htl.
    rewrite isLoading_run.
    change (Terms.loadingWrites (Write (setIsLoading true) :: before))
      with (true :: Terms.loadingWrites before).
    apply (f_equal Terms.loadingWrites) in Htl.
    rewrite loadingWrites_app in Htl.
    assert (Hbefore : Terms.loadingWrites before = []).
    { destruct Htail as [Hone|[Hnone Hout]].
      - destruct Hone as [Hone Hret]. destruct Hwhen as [Hin|Hsusp].
        + apply list_elem_of_split in Hin. destruct Hin as (r1 & r2 & ->).
          rewrite loadingWrites_app in Htl.
          change (Terms.loadingWrites (Write (setIsLoading false) :: r2))
            with (false :: Terms.loadingWrites r2) in Htl.
          rewrite Hone in Htl.
          destruct (Terms.loadingWrites before) as [|b bs]; [reflexivity|].
          exfalso. apply (f_equal length) in Htl.
          simpl in Htl. rewrite !length_app in Htl. simpl in Htl. lia.
        + congruence.
      - rewrite Hnone in Htl.
        destruct (Terms.loadingWrites before); [reflexivity|discriminate]. }
    rewrite Hbefore. reflexivity. }
  unfold generateDisabled, suggestDisabled, resultShown.
  rewrite Hup. repeat split.
  destruct (generatedBook (run before s0)); reflexivity.
Qed.

Lemma assemble_authorBio w s bio outline allContent book :
  assemble w s bio outline allContent = Some book ->
  Book.authorBio book = Some bio
  /\ Book.title book = title s
  /\ Book.acknowledgements book = Some (acknowledgements s)
  /\ Book.dedication book = Some (dedication s).
Proof.
  unfold assemble.
  destruct (index allContent 0) as [c0|]; [|discriminate].
  destruct (index allContent (Z.of_nat (length allContent) - 1)) as [cl|];
    [|discriminate].
  simpl. intros [= <-]. simpl. auto.
Qed.

(** X11. With the generated bio chosen and the bio request answered, the
    bio is written back to the form whatever happens next (outline or
    content failure, or a run that never resumes), and a book the run
    assigns carries that bio. *)
Theorem generated_bio_is_kept w s bio :
  truthy (trim (title s)) = true ->
  truthy (trim (authorName s)) = true ->
  authorBioOption s = auto ->
  authorBioResponse w = Some bio ->
  (forall s0,
     authorBio (after (handleGenerateBook translations w s) s0) = bio)
  /\ (forall book,
        book ∈ booksAssigned (events (handleGenerateBook translations w s)) ->
        Book.authorBio book = Some bio).
Proof.
  intros Hv1 Hv2 Hauto Hbio. split.
  - unfold after, handleGenerateBook.
    rewrite Hv1, Hv2. cbn [negb orb].
    unfold generateBookBody, Gemini.generateAuthorBio,
      Gemini.generateBookOutline.
    rewrite Hauto, Hbio.
    paths; intros s0; rewrite ?run_app, ?run_calls; reflexivity.
  - intros book Hin.
    destruct (book_assigned_inv translations _ _ _ Hin)
      as (outline & allContent & bio' & _ & Hfinal & _ & Hasm).
    unfold finalAuthorBioIs in Hfinal. rewrite Hauto in Hfinal.
    assert (bio' = bio) as -> by congruence.
    apply (assemble_authorBio _ _ _ _ _ _ Hasm).
Qed.

Lemma handleGenerateBook_no_throw w s message :
  outcome (handleGenerateBook translations w s) <> Threw message.
Proof.
  unfold handleGenerateBook, generateBookBody.
  paths; discriminate.
Qed.

(** X12. No failure escapes a handler: whatever the service answers,
    the promise a handler returns never rejects, since the [catch] of
    each turns what was thrown into an error message.  Whether a handler
    comes to its end is another matter (no request has a timeout). *)
Theorem handlers_never_reject w s feedback message :
  outcome (handleSuggestTitles w s) <> Threw message
  /\ outcome (handleGenerateCover w s feedback) <> Threw message
  /\ outcome (handleGenerateBook translations w s) <> Threw message.
Proof.
  split; [|split].
  - unfold handleSuggestTitles. paths; discriminate.
  - unfold handleGenerateCover. paths; discriminate.
  - apply handleGenerateBook_no_throw.
Qed.

End GenerationMore.

(* ================================================================== *)
(** ** What is shown after a request *)
(* ================================================================== *)

Section ViewFacts.

Import App Spec View.


(** X14. In every state exactly one of the three pieces under the title
    field is rendered: the suggest button, the line that says titles are
    being thought of, or the list of suggestions. *)
Theorem one_suggestion_view (s : AppState) :
  (suggestButtonShown s = true /\ suggestingShown s = false
   /\ suggestionsShown s = false)
  \/ (suggestButtonShown s = false /\ suggestingShown s = true
      /\ suggestionsShown s = false)
  \/ (suggestButtonShown s = false /\ suggestingShown s = false
      /\ suggestionsShown s = true).
Proof.
  unfold suggestButtonShown, suggestingShown, suggestionsShown.
  destruct (isSuggesting s), (suggestedTitles s); simpl; auto.
Qed.


(** X16. With a book generated, after a correction request that fails the
    feedback typed is still there and the cover loading flag is down, so
    the correct-cover button is enabled again exactly when that feedback
    is not blank; the cover shown is the one of before and the error
    panel shows the failure. *)
Theorem cover_failure_allows_retry w s s0 book :
  generatedBook s = Some book ->
  coverResponse w = None ->
  correctCoverDisabled (after (correctCover w s) s0)
  = negb (truthy (trim (coverFeedback s0)))
  /\ coverShown (after (correctCover w s) s0) = coverShown s0
  /\ errorShown (after (correctCover w s) s0) = true
  /\ requestsSent (events (correctCover w s))
     = [CoverImage (Book.title book) (Book.synopsis book)
          (Some (coverFeedback s))].
Proof.
  intros Hbook Hcover.
  unfold after, correctCover, handleGenerateCover,
    Gemini.generateCoverImage.
  rewrite Hbook, Hcover. task_simpl. repeat split.
Qed.

End ViewFacts.

(* ================================================================== *)
(** ** More on the export *)
(* ================================================================== *)

Section ExportMore.

Import Docx App Spec Terms.

Variable translations : LanguageKey -> TranslationKey -> jsstring.

Lemma headings_app nodes1 nodes2 :
  headings (nodes1 ++ nodes2) = headings nodes1 ++ headings nodes2.
Proof. apply omap_app. Qed.

Lemma headings_prose text : headings (prose text) = [].
Proof.
  unfold prose. induction (proseLines text) as [|l ls IH]; [reflexivity|].
  rewrite fmap_cons. exact IH.
Qed.

Lemma headings_chapters chapters :
  headings
    (flat_map (fun chapter =>
       [PageBreak; Heading (Chapter.title chapter) HEADING_1]
       ++ prose (Chapter.content chapter)) chapters)
  = Chapter.title <$> chapters.
Proof.
  induction chapters as [|ch chs IH]; [reflexivity|].
  cbn [flat_map]. rewrite !headings_app, IH, headings_prose.
  rewrite fmap_cons. reflexivity.
Qed.

Lemma headings_optional o heading :
  headings
    (whenPresent o (fun text => [PageBreak; Heading heading HEADING_1]
                                ++ prose text))
  = if truthyOpt o then [heading] else [].
Proof.
  destruct o as [[|c s]|]; try reflexivity.
  unfold whenPresent. simpl truthy. cbv iota.
  rewrite headings_app, headings_prose. reflexivity.
Qed.

Lemma headings_children (book : Book.t) :
  headings (children book)
  = [lit "Synopsis"; Chapter.title (Book.introduction book)]
    ++ (Chapter.title <$> Book.chapters book)
    ++ [Chapter.title (Book.conclusion book)]
    ++ optionalHeadings book.
Proof.
  unfold children, optionalHeadings.
  rewrite !headings_app.
  rewrite !headings_prose, headings_chapters, !headings_optional.
  destruct (Book.subtitle book) as [[|c s]|],
           (Book.dedication book) as [[|c' d]|];
    repeat match goal with
           | |- context [headings ?nodes] =>
               first [ change (headings nodes) with (@nil jsstring)
                     | change (headings nodes) with [lit "Synopsis"]
                     | match nodes with
                       | [PageBreak; Heading ?t _] =>
                           change (headings nodes) with [t]
                       end ]
           end;
    cbn [app]; rewrite <- ?app_assoc, ?app_nil_r; reflexivity.
Qed.

(** X17. The headings of the exported document are, in this order:
    "Synopsis", the introduction's title, the chapters' titles in the
    order of the book, the conclusion's title, then "Acknowledgements" and
    "About the Author" for those of the two texts that are there. *)
Theorem export_headings_in_order (book : Book.t) :
  headings (children book)
  = [lit "Synopsis"; Chapter.title (Book.introduction book)]
    ++ (Chapter.title <$> Book.chapters book)
    ++ [Chapter.title (Book.conclusion book)]
    ++ optionalHeadings book.
Proof. apply headings_children. Qed.

Lemma startPages_prose afterBreak text rest :
  startPages afterBreak (prose text ++ PageBreak :: rest)
  = startPages true rest.
Proof.
  unfold prose. revert afterBreak.
  induction (proseLines text) as [|l ls IH]; intros afterBreak;
    [reflexivity|].
  rewrite fmap_cons. apply (IH false).
Qed.

Lemma startPages_chapters chapters rest :
  exists nodes,
    flat_map (fun chapter =>
      [PageBreak; Heading (Chapter.title chapter) HEADING_1]
      ++ prose (Chapter.content chapter)) chapters
    ++ PageBreak :: rest
    = PageBreak :: nodes
    /\ startPages true nodes = startPages true rest.
Proof.
  induction chapters as [|ch chs (nodes & Heq & Hnodes)].
  - exists rest. split; reflexivity.
  - cbn [flat_map]. rewrite <- !app_assoc, Heq. cbn [app].
    eexists. split; [reflexivity|].
    cbn [startPages andb]. rewrite startPages_prose. exact Hnodes.
Qed.

Lemma startPages_optional o heading rest :
  exists nodes,
    whenPresent o (fun text => [PageBreak; Heading heading HEADING_1]
                               ++ prose text)
    ++ PageBreak :: rest
    = PageBreak :: nodes
    /\ startPages true nodes = startPages true rest.
Proof.
  destruct o as [[|c s]|]; try (exists rest; split; reflexivity).
  unfold whenPresent. simpl truthy. cbv iota.
  rewrite <- !app_assoc. cbn [app]. eexists. split; [reflexivity|].
  cbn [startPages andb]. apply startPages_prose.
Qed.

Lemma startPages_children book : startPages false (children book) = true.
Proof.
  unfold children.
  destruct (startPages_optional (Book.authorBio book)
              (lit "About the Author")
              [Centered (lit "Thank you for reading.") false 4000])
    as (bioNodes & Hbio & HbioOk).
  change ([PageBreak; Centered (lit "Thank you for reading.") false 4000])
    with (PageBreak
          :: [Centered (lit "Thank you for reading.") false 4000]).
  rewrite Hbio.
  destruct (startPages_optional (Book.acknowledgements book)
              (lit "Acknowledgements") bioNodes)
    as (ackNodes & Hack & HackOk).
  rewrite Hack.
  change ([PageBreak; Heading (Chapter.title (Book.conclusion book)) HEADING_1]
          ++ prose (Chapter.content (Book.conclusion book))
          ++ PageBreak :: ackNodes)
    with (PageBreak
          :: (Heading (Chapter.title (Book.conclusion book)) HEADING_1
              :: prose (Chapter.content (Book.conclusion book))
                 ++ PageBreak :: ackNodes)).
  destruct (startPages_chapters (Book.chapters book)
              (Heading (Chapter.title (Book.conclusion book)) HEADING_1
               :: prose (Chapter.content (Book.conclusion book))
                  ++ PageBreak :: ackNodes))
    as (chapterNodes & Hch & HchOk).
  rewrite Hch.
  assert (Hmain :
    startPages true
      ([Heading (lit "Synopsis") HEADING_1]
       ++ prose (Book.synopsis book)
       ++ [PageBreak; Heading (Chapter.title (Book.introduction book)) HEADING_1]
       ++ prose (Chapter.content (Book.introduction book))
       ++ PageBreak :: chapterNodes) = true).
  { cbn [app startPages andb]. rewrite startPages_prose.
    cbn [startPages andb]. rewrite startPages_prose, HchOk.
    cbn [startPages andb]. rewrite startPages_prose, HackOk, HbioOk.
    reflexivity. }
  destruct (Book.subtitle book) as [[|c s]|],
           (Book.dedication book) as [[|c' d]|];
    exact Hmain.
Qed.

(** A list that passes [startPages] has a page break before each of its
    headings. *)
Lemma startPages_lookup afterBreak nodes i text level :
  startPages afterBreak nodes = true ->
  nodes !! S i = Some (Heading text level) ->
  nodes !! i = Some PageBreak.
Proof.
  revert afterBreak i. induction nodes as [|node nodes IH];
    intros afterBreak i Hok Hi; [discriminate|].
  destruct i as [|i].
  - destruct nodes as [|next nodes]; [discriminate|].
    simpl in Hi. injection Hi as ->.
    destruct node; simpl in Hok;
      try (apply andb_true_iff in Hok; destruct Hok as [_ Hok]);
      try (simpl in Hok; discriminate); reflexivity.
  - change ((node :: nodes) !! S (S i)) with (nodes !! S i) in Hi.
    change ((node :: nodes) !! S i) with (nodes !! i).
    destruct node; simpl in Hok;
      try (apply andb_true_iff in Hok; destruct Hok as [_ Hok]);
      eapply IH; eassumption.
Qed.

(** X18. Every section of the exported document starts on a new page: the
    node right before a heading is always a page break, and the document
    does not start with a heading. *)
Theorem export_headings_start_pages (book : Book.t) i text level :
  children book !! i = Some (Heading text level) ->
  exists j, i = S j /\ children book !! j = Some PageBreak.
Proof.
  intros Hi. destruct i as [|j].
  - unfold children in Hi. discriminate Hi.
  - exists j. split; [reflexivity|].
    eapply startPages_lookup; [apply startPages_children | exact Hi].
Qed.

(** X19. The document exported from a book that a generation run assigned
    has the outline's titles as its headings, in the outline's order,
    between "Synopsis" and the optional sections; these are there
    according to the acknowledgements of the form and to the bio the book
    was assembled with. *)
Theorem export_of_generated_book w s book :
  book ∈ booksAssigned (events (handleGenerateBook translations w s)) ->
  exists outline bio,
    outlineResponse w = Some outline
    /\ finalAuthorBioIs w s bio
    /\ headings (children book)
       = [lit "Synopsis"; BookOutline.introductionTitle outline]
         ++ BookOutline.chapterTitles outline
         ++ [BookOutline.conclusionTitle outline]
         ++ (if truthy (acknowledgements s)
             then [lit "Acknowledgements"] else [])
         ++ (if truthy bio then [lit "About the Author"] else [])
    /\ View.docxName book
       = Text.replaceAll 32 95 (title s) ++ lit ".docx".
Proof.
  intros Hin.
  destruct (book_assigned_inv translations _ _ _ Hin)
    as (outline & allContent & bio & Hout & Hbio & Hall & Hasm).
  apply all_returned in Hall.
  pose proof (contentPromises_fulfilled _ _ _ Hall) as Htitles.
  destruct (sections_split _ _ Htitles)
    as (c0 & mid & cl & -> & Ht0 & Hmid & Hcl).
  destruct (assemble_split _ _ _ _ _ _ _ _ Hasm) as (Hi & Hc & Hl).
  destruct (assemble_authorBio _ _ _ _ _ _ Hasm) as (Hb & Ht & Ha & _).
  exists outline, bio. split; [exact Hout|]. split; [exact Hbio|]. split.
  - rewrite (headings_children book).
    unfold optionalHeadings. rewrite Hi, Hc, Hl, Hb, Ha, Ht0, Hmid, Hcl.
    reflexivity.
  - unfold View.docxName. rewrite Ht. reflexivity.
Qed.

End ExportMore.

(* ================================================================== *)
(** ** Prompts and the earlier export *)
(* ================================================================== *)

Section PromptFacts.

Import Docx App Spec Terms.

Lemma correction_nonempty feedback : Prompt.correction feedback <> [].
Proof. discriminate. Qed.

(** X20. The cover prompt ignores a feedback that is absent, empty or
    blank, and only those: any feedback with something visible in it is
    appended, quoted as typed, after the base prompt.  The correct-cover
    button is enabled for such feedback only, so what it sends always
    reaches the prompt. *)
Theorem cover_prompt_feedback (config : GenerationConfig.t)
    (synopsis : jsstring) (feedback : option jsstring) :
  (Prompt.cover config synopsis feedback = Prompt.cover config synopsis None
   <-> match feedback with
       | Some text => Forall (fun c => isWhiteSpace c = true) text
       | None => True
       end)
  /\ (forall text,
        visible text ->
        Prompt.cover config synopsis (Some text)
        = Prompt.coverBase config synopsis ++ Prompt.correction text)
  /\ (forall s,
        View.correctCoverDisabled s = false ->
        Prompt.cover config synopsis (Some (coverFeedback s))
        = Prompt.coverBase config synopsis
          ++ Prompt.correction (coverFeedback s)).
Proof.
  assert (Hvisible : forall text,
            truthy (trim text) = true ->
            Prompt.cover config synopsis (Some text)
            = Prompt.coverBase config synopsis ++ Prompt.correction text).
  { intros text Ht. unfold Prompt.cover. rewrite Ht.
    destruct text as [|c text]; [discriminate Ht | reflexivity]. }
  split; [|split].
  - destruct feedback as [text|]; [|tauto].
    destruct (truthy (trim text)) eqn:Ht.
    + rewrite (Hvisible text Ht). unfold Prompt.cover.
      split.
      * intros H. apply app_inv_head in H.
        exfalso. exact (correction_nonempty text H).
      * intros H. apply trim_blank in H. congruence.
    + unfold Prompt.cover. rewrite Ht, andb_false_r.
      split; [|reflexivity]. intros _.
      apply trim_nil. destruct (trim text); [reflexivity | discriminate Ht].
  - intros text Hv. apply Hvisible.
    apply trim_visible in Hv. destruct (trim text); [contradiction|reflexivity].
  - intros s Hen. apply Hvisible.
    unfold View.correctCoverDisabled in Hen.
    apply orb_false_iff in Hen. destruct Hen as [_ Hen].
    apply negb_false_iff in Hen. exact Hen.
Qed.

(** X21. In the outline prompt an empty subtitle, an undefined one and the
    subtitle "N/A" are the same: the three configurations give the same
    prompt, and so does the form with the subtitle field left empty. *)
Theorem outline_prompt_subtitle_default (config : GenerationConfig.t) :
  Prompt.outline (withSubtitle (Some []) config)
  = Prompt.outline (withSubtitle None config)
  /\ Prompt.outline (withSubtitle None config)
     = Prompt.outline (withSubtitle (Some (lit "N/A")) config)
  /\ forall s,
       subtitle s = [] ->
       Prompt.outline (generationConfig s)
       = Prompt.outline
           (withSubtitle (Some (lit "N/A")) (generationConfig s)).
Proof.
  split; [reflexivity|]. split; [reflexivity|].
  intros s Hs. unfold Prompt.outline, generationConfig. simpl.
  rewrite Hs. reflexivity.
Qed.

Lemma length_split sep (s : jsstring) :
  length (split sep s) = S (length (filter (fun c => c = sep) s)).
Proof.
  induction s as [|c s IH]; [reflexivity|].
  change (filter (fun c => c = sep) (c :: s))
    with (if decide (c = sep)
          then c :: filter (fun c => c = sep) s
          else filter (fun c => c = sep) s).
  simpl split.
  destruct (N.eqb_spec c sep) as [->|Hne].
  - rewrite decide_True by reflexivity. simpl. rewrite IH. reflexivity.
  - rewrite decide_False by exact Hne.
    destruct (split sep s) as [|l ls]; [discriminate IH|]. exact IH.
Qed.

Lemma bodyTexts_proseEarlier text :
  bodyTexts (proseEarlier text) = split LF text.
Proof.
  unfold proseEarlier.
  induction (split LF text) as [|l ls IH]; [reflexivity|].
  rewrite fmap_cons.
  change (l :: bodyTexts ((fun p => Styled p normalPara) <$> ls) = l :: ls).
  f_equal. exact IH.
Qed.

(** C5 does not hold of the earlier revision of the export, which has no
    filter: the synopsis "one", blank line, "two" has the empty piece
    between its two line feeds, and the document of the earlier revision
    holds an empty body paragraph for it, right after the paragraph of
    "one". *)
Lemma earlier_export_keeps_blank_line :
  split LF (Book.synopsis More.spaced) = [lit "one"; []; lit "two"]
  /\ ~ visible []
  /\ childrenEarlier More.spaced !! 6%nat
     = Some (Para (Styled (lit "one") normalPara))
  /\ childrenEarlier More.spaced !! 7%nat
     = Some (Para (Styled [] normalPara))
  /\ Para (Styled [] normalPara) ∈ childrenEarlier More.spaced.
Proof.
  split; [reflexivity|]. split.
  - intros H. inversion H.
  - split; [reflexivity|]. split; [reflexivity|].
    apply list_elem_of_lookup. exists 7%nat. reflexivity.
Qed.

(** X22. The earlier revision of the export makes a body paragraph of
    every piece between line feeds, the empty ones included: a text with
    k line feeds gives k + 1 paragraphs.  The paragraphs of the later
    revision are the visible ones among them, so at most as many. *)
Theorem earlier_export_keeps_every_line (text : jsstring) :
  length (proseEarlier text) = S (lineFeeds text)
  /\ bodyTexts (prose text) = filter visible (bodyTexts (proseEarlier text))
  /\ (length (prose text) <= S (lineFeeds text))%nat.
Proof.
  assert (Hlen : length (proseEarlier text) = S (lineFeeds text)).
  { unfold proseEarlier, lineFeeds. rewrite length_fmap. apply length_split. }
  split; [exact Hlen|]. split.
  - rewrite bodyTexts_prose, bodyTexts_proseEarlier. reflexivity.
  - rewrite <- Hlen. unfold prose, proseEarlier. rewrite !length_fmap.
    unfold proseLines. apply length_filter.
Qed.

End PromptFacts.

(* ================================================================== *)
(** ** The sample session, continued *)
(* ================================================================== *)

Section SampleSessionMore.

Import App Spec View Terms.

Ltac blank := vm_compute; repeat constructor.


Lemma cleanedJson_unwraps_fenced_witness :
  Forall (fun c => isWhiteSpace c = true) [32; 10]
  /\ Forall (fun c => isWhiteSpace c = true) [10]
  /\ Text.cleanedJson
       ([32; 10] ++ Text.fence ++ lit "json" ++ [LF] ++ lit "{}" ++ [LF]
        ++ Text.fence ++ [10])
     = lit "{}".
Proof.
  assert (H1 : Forall (fun c => isWhiteSpace c = true) [32; 10]) by blank.
  assert (H2 : Forall (fun c => isWhiteSpace c = true) [10]) by blank.
  split; [exact H1|]. split; [exact H2|].
  exact (cleanedJson_unwraps_fenced [32; 10] [10] (lit "{}") H1 H2).
Defined.

Lemma cleanedJson_trims_unfenced_witness :
  Forall (fun c => isWhiteSpace c = true) [32]
  /\ Forall (fun c => isWhiteSpace c = true) [10]
  /\ Text.cleanedJson ([32] ++ 123 :: lit "1" ++ 125 :: [10])
     = 123 :: lit "1" ++ [125].
Proof.
  assert (H1 : Forall (fun c => isWhiteSpace c = true) [32]) by blank.
  assert (H2 : Forall (fun c => isWhiteSpace c = true) [10]) by blank.
  split; [exact H1|]. split; [exact H2|].
  apply (cleanedJson_trims_unfenced [32] [10] (lit "1") 123 125 H1 H2);
    [reflexivity | reflexivity | discriminate | discriminate].
Defined.


Lemma generation_requests_witness :
  truthy (trim (title Sample.form)) = true
  /\ length (requestsSent
               (events (handleGenerateBook Sample.table Sample.failing
                          Sample.form))) = 5%nat.
Proof.
  split; [reflexivity|].
  rewrite (generation_requests Sample.table Sample.failing Sample.form
             eq_refl eq_refl).
  reflexivity.
Defined.

Lemma generation_failure_names_step_witness :
  truthy (trim (title More.formAuto)) = true
  /\ authorBioOption More.formAuto = auto
  /\ authorBioResponse More.noBio = None
  /\ is_Some (authorBioResponse More.noOutline)
  /\ outlineResponse More.noOutline = None
  /\ error (after (handleGenerateBook Sample.table More.noBio More.formAuto)
                  More.formAuto)
     = Some (lit "An error occurred: "
             ++ lit "Failed to generate author bio.")
  /\ error (after (handleGenerateBook Sample.table More.noOutline
                     More.formAuto) More.formAuto)
     = Some (lit "An error occurred: "
             ++ lit "Failed to generate book outline. Please check the console for details.").
Proof.
  assert (H1 : authorBioOption More.formAuto = auto) by reflexivity.
  assert (H2 : authorBioResponse More.noBio = None) by reflexivity.
  assert (H3 : is_Some (authorBioResponse More.noOutline))
    by (eexists; reflexivity).
  assert (H4 : outlineResponse More.noOutline = None) by reflexivity.
  split; [reflexivity|]. split; [exact H1|]. split; [exact H2|].
  split; [exact H3|]. split; [exact H4|]. split.
  - destruct (generation_failure_names_step Sample.table More.noBio
                More.formAuto More.formAuto eq_refl eq_refl)
      as [Hbio _].
    destruct (Hbio H1 H2) as (_ & Herr & _). exact Herr.
  - destruct (generation_failure_names_step Sample.table More.noOutline
                More.formAuto More.formAuto eq_refl eq_refl)
      as [_ Houtline].
    destruct (Houtline (or_intror H3) H4) as (_ & Herr & _). exact Herr.
Defined.


Lemma loading_flag_up_during_run_witness :
  take 6 (events (handleGenerateBook Sample.table Sample.answered
                    Sample.form)) <> []
  /\ Write (setIsLoading false)
       ∈ drop 6 (events (handleGenerateBook Sample.table Sample.answered
                           Sample.form))
  /\ isLoading
       (run (take 6 (events (handleGenerateBook Sample.table Sample.answered
                               Sample.form))) Sample.form) = true.
Proof.
  assert (H1 : take 6 (events (handleGenerateBook Sample.table
                                 Sample.answered Sample.form)) <> [])
    by (vm_compute; discriminate).
  assert (H2 : Write (setIsLoading false)
                 ∈ drop 6 (events (handleGenerateBook Sample.table
                                     Sample.answered Sample.form)))
    by (vm_compute; repeat constructor).
  split; [exact H1|]. split; [exact H2|].
  exact (proj1 (loading_flag_up_during_run Sample.table Sample.answered
                  Sample.form Sample.form _ _ eq_refl eq_refl
                  (eq_sym (take_drop 6 _)) H1 (or_introl H2))).
Defined.

Lemma generated_bio_is_kept_witness :
  authorBioOption More.formAuto = auto
  /\ authorBioResponse More.noOutline = Some (lit "Ana writes by the shore.")
  /\ authorBio (after (handleGenerateBook Sample.table More.noOutline
                         More.formAuto) More.formAuto)
     = lit "Ana writes by the shore.".
Proof.
  split; [reflexivity|]. split; [reflexivity|].
  exact (proj1 (generated_bio_is_kept Sample.table More.noOutline
                  More.formAuto (lit "Ana writes by the shore.")
                  eq_refl eq_refl eq_refl eq_refl) More.formAuto).
Defined.

Lemma generation_succeeds_witness :
  outlineResponse More.withBio = Some Sample.outline
  /\ exists book,
       booksAssigned
         (events (handleGenerateBook Sample.table More.withBio More.formAuto))
       = [book]
       /\ outcome (handleGenerateBook Sample.table More.withBio More.formAuto)
          = Returned tt
       /\ forall s0,
            generatedBook
              (after (handleGenerateBook Sample.table More.withBio
                        More.formAuto) s0) = Some book.
Proof.
  split; [reflexivity|].
  apply (generation_succeeds Sample.table More.withBio More.formAuto
           Sample.outline); try reflexivity.
  - right. eexists. reflexivity.
  - intros i Hi. split; [eexists; reflexivity|].
    simpl in Hi.
    destruct i as [|[|[|[|i]]]]; [| | | |lia]; simpl; repeat constructor.
Defined.



Lemma cover_failure_allows_retry_witness :
  generatedBook Sample.done = Some Sample.book
  /\ coverResponse Sample.failing = None
  /\ correctCoverDisabled
       (after (correctCover Sample.failing Sample.done) Sample.done)
     = negb (truthy (trim (coverFeedback Sample.done))).
Proof.
  split; [reflexivity|]. split; [reflexivity|].
  exact (proj1 (cover_failure_allows_retry Sample.failing Sample.done
                  Sample.done Sample.book eq_refl eq_refl)).
Defined.

Lemma export_headings_start_pages_witness :
  Docx.children Sample.book !! 5%nat
  = Some (Docx.Heading (lit "Synopsis") Docx.HEADING_1)
  /\ exists j, 5%nat = S j /\ Docx.children Sample.book !! j = Some Docx.PageBreak.
Proof.
  assert (H : Docx.children Sample.book !! 5%nat
              = Some (Docx.Heading (lit "Synopsis") Docx.HEADING_1))
    by reflexivity.
  split; [exact H|].
  exact (export_headings_start_pages Sample.book 5 (lit "Synopsis")
           Docx.HEADING_1 H).
Defined.

Lemma export_of_generated_book_witness :
  Sample.book
    ∈ booksAssigned
        (events (handleGenerateBook Sample.table Sample.answered Sample.form))
  /\ exists outline bio,
       outlineResponse Sample.answered = Some outline
       /\ finalAuthorBioIs Sample.answered Sample.form bio
       /\ headings (Docx.children Sample.book)
          = [lit "Synopsis"; BookOutline.introductionTitle outline]
            ++ BookOutline.chapterTitles outline
            ++ [BookOutline.conclusionTitle outline]
            ++ (if truthy (acknowledgements Sample.form)
                then [lit "Acknowledgements"] else [])
            ++ (if truthy bio then [lit "About the Author"] else [])
       /\ View.docxName Sample.book
          = Text.replaceAll 32 95 (title Sample.form) ++ lit ".docx".
Proof.
  assert (H : Sample.book
                ∈ booksAssigned
                    (events (handleGenerateBook Sample.table Sample.answered
                               Sample.form)))
    by (vm_compute; constructor).
  split; [exact H|].
  exact (export_of_generated_book Sample.table Sample.answered Sample.form
           Sample.book H).
Defined.

End SampleSessionMore.
